(** * ARD Audiothek extractor: a shallow embedding of
      [youtube_dl/extractor/ardaudiothek.py] and the properties of its
      episode normalisation and playlist assembly.

    The extractor is Python.  Its inputs are JSON documents decoded by the
    interpreter, its failures are exceptions, and its only side effect is
    the warning channel of the host framework.  The embedding keeps these
    three things explicit: a type of Python values, an outcome type with
    the exception classes the code can meet, and a small monad threading
    the list of warnings reported so far.  Values behave as under
    Python 3: text is [str], and [bool] is a kind of [int]. *)

From Stdlib Require Import String Ascii List ZArith Bool Lia.
Import ListNotations.

Local Open Scope string_scope.
Local Open Scope list_scope.

(* ================================================================== *)
(** ** Python values, exceptions and outcomes *)
(* ================================================================== *)

(** A decoded JSON document.  A [str] is kept as its UTF-8 bytes; a [dict]
    is kept as an association list in which the first binding of a key is
    the one the dict holds (JSON object keys are always strings). *)
#[warnings="-register-all"]
Inductive pyval : Type :=
| PyNone
| PyBool (b : bool)
| PyInt (z : Z)
| PyFloat (mantissa exponent : Z)
| PyStr (s : string)
| PyList (items : list pyval)
| PyDict (fields : list (string * pyval)).

(** Exception classes of the interpreter that this code can meet. *)
Inductive builtin_exn : Type :=
| KeyError | IndexError | TypeError | AttributeError | ValueError
| OtherBuiltin.

(** [ExtractorError(msg=..., expected=True)] of the host framework is the
    only exception the extractor raises itself. *)
Inductive exn : Type :=
| Builtin (b : builtin_exn)
| ExtractorError (msg : string).

Inductive outcome (A : Type) : Type :=
| Return (a : A)
| Raise (e : exn).
Arguments Return {A} a.
Arguments Raise {A} e.

Definition obind {A B : Type} (o : outcome A) (f : A -> outcome B) : outcome B :=
  match o with
  | Return a => f a
  | Raise e => Raise e
  end.

Declare Scope outcome_scope.
Delimit Scope outcome_scope with outcome.
Notation "x <- o ;; k" := (obind o (fun x => k))
  (at level 61, o at next level, right associativity) : outcome_scope.

(** The three fatal conditions, under the names the specification uses;
    the message of an empty playlist names what was looked for. *)
Definition MissingMediaURL : exn := ExtractorError "Could not find a URL to download".
Definition EmptyPlaylist (what : string) : exn :=
  ExtractorError ("Could not find any " ++ what)%string.
Definition NoEpisodeData : exn := ExtractorError "Could not find any episode data".

(** Two exceptions are of the same class ([except] clauses look at the
    class only, never at the message). *)
Definition same_class (e1 e2 : exn) : Prop :=
  match e1, e2 with
  | Builtin b1, Builtin b2 => b1 = b2
  | ExtractorError _, ExtractorError _ => True
  | _, _ => False
  end.

(** *** Subscription [v[k]] *)

Inductive key : Type :=
| KStr (s : string)      (* v['name'] *)
| KIdx (n : nat).        (* v[n] with a literal n >= 0 *)

Fixpoint dict_get (fields : list (string * pyval)) (k : string) : option pyval :=
  match fields with
  | [] => None
  | (k', v) :: rest => if String.eqb k' k then Some v else dict_get rest k
  end.

(** Code points of a UTF-8 encoded [str]: a byte 10xxxxxx continues the
    code point begun before it. *)
Definition is_continuation (c : ascii) : bool :=
  let n := nat_of_ascii c in (128 <=? n)%nat && (n <? 192)%nat.

Definition starts_with_continuation (s : string) : bool :=
  match s with
  | String c _ => is_continuation c
  | EmptyString => false
  end.

Fixpoint codepoints (s : string) : list string :=
  match s with
  | EmptyString => []
  | String c rest =>
      match codepoints rest with
      | g :: gs =>
          if starts_with_continuation g then String c g :: gs
          else String c EmptyString :: g :: gs
      | [] => [String c EmptyString]
      end
  end.

(** [v[k]]: a dict raises KeyError on a key it does not hold (an integer
    is never a key of a decoded JSON object); a list or a str takes
    integer indices only and raises IndexError out of range; None, bool,
    int and float are not subscriptable. *)
Definition subscript (v : pyval) (k : key) : outcome pyval :=
  match v, k with
  | PyDict fields, KStr s =>
      match dict_get fields s with
      | Some x => Return x
      | None => Raise (Builtin KeyError)
      end
  | PyDict _, KIdx _ => Raise (Builtin KeyError)
  | PyList items, KIdx n =>
      match nth_error items n with
      | Some x => Return x
      | None => Raise (Builtin IndexError)
      end
  | PyList _, KStr _ => Raise (Builtin TypeError)
  | PyStr s, KIdx n =>
      match nth_error (codepoints s) n with
      | Some c => Return (PyStr c)
      | None => Raise (Builtin IndexError)
      end
  | PyStr _, KStr _ => Raise (Builtin TypeError)
  | (PyNone | PyBool _ | PyInt _ | PyFloat _ _), _ => Raise (Builtin TypeError)
  end.

(** A getter [lambda x: x[k1][k2]...[kn]]. *)
Fixpoint get_path (path : list key) (x : pyval) : outcome pyval :=
  match path with
  | [] => Return x
  | k :: rest => obind (subscript x k) (get_path rest)
  end.

(** Truth value of a value, as [if v] and [not v] take it. *)
Definition truthy (v : pyval) : bool :=
  match v with
  | PyNone => false
  | PyBool b => b
  | PyInt z => negb (Z.eqb z 0)
  | PyFloat m _ => negb (Z.eqb m 0)
  | PyStr s => negb (String.eqb s "")
  | PyList items => match items with [] => false | _ => true end
  | PyDict fields => match fields with [] => false | _ => true end
  end.

(** [isinstance(v, T)] for the four types the extractor filters on
    ([bool] is a subclass of [int]). *)
Definition compat_str (v : pyval) : bool :=
  match v with PyStr _ => true | _ => false end.
Definition int (v : pyval) : bool :=
  match v with PyInt _ | PyBool _ => true | _ => false end.
Definition list_ (v : pyval) : bool :=
  match v with PyList _ => true | _ => false end.
Definition dict (v : pyval) : bool :=
  match v with PyDict _ => true | _ => false end.

(* ================================================================== *)
(** ** Helpers of [youtube_dl.utils] and of the interpreter *)
(* ================================================================== *)

(** The exceptions [try_get] takes for a missing link. *)
Definition passed_over (e : exn) : bool :=
  match e with
  | Builtin (AttributeError | KeyError | TypeError | IndexError) => true
  | _ => false
  end.

(** Modelled from the spec: [try_get] of [youtube_dl/utils.py], which the
    extractor imports and which is not among the sources at hand.  It is
    the ordered-fallback accessor of the design notes: every getter is
    tried in turn against the source; a getter that raises for a missing
    link (AttributeError, KeyError, TypeError, IndexError) is passed over;
    the first value that is an instance of the expected type is returned,
    and None when no getter gives one.  A single getter is a list of one. *)
Fixpoint try_get (src : pyval) (getter : list (pyval -> outcome pyval))
    (expected_type : option (pyval -> bool)) : outcome pyval :=
  match getter with
  | [] => Return PyNone
  | get :: others =>
      match get src with
      | Return v =>
          match expected_type with
          | None => Return v
          | Some isinstance =>
              if isinstance v then Return v
              else try_get src others expected_type
          end
      | Raise e =>
          if passed_over e then try_get src others expected_type
          else Raise e
      end
  end.

(** *** [template.format(width=320)]

    The part of [str.format] that every interpreter version agrees on is
    modelled: literal text, the escapes for braces, the replacement field
    [{width}], a replacement field naming another identifier (KeyError),
    a closing brace on its own and an opening brace at the very end
    (ValueError).  Anything else in a replacement field (conversions,
    format specifications, attribute and index access, numbered or empty
    fields) is left to the interpreter. *)
Inductive fmt_result : Type :=
| Rendered (s : string)
| Fails (e : builtin_exn)
| Beyond.

Definition emit (prefix : string) (r : fmt_result) : fmt_result :=
  match r with
  | Rendered s => Rendered (prefix ++ s)%string
  | other => other
  end.

Definition is_ident_start (c : ascii) : bool :=
  let n := nat_of_ascii c in
  ((65 <=? n) && (n <=? 90) || (97 <=? n) && (n <=? 122) || (n =? 95))%nat.

Definition is_ident_char (c : ascii) : bool :=
  let n := nat_of_ascii c in
  (is_ident_start c || (48 <=? n) && (n <=? 57))%nat.

Definition is_identifier (name : string) : bool :=
  match name with
  | EmptyString => false
  | String c rest => is_ident_start c && forallb is_ident_char (list_ascii_of_string rest)
  end.

Definition lbrace : ascii := "{"%char.
Definition rbrace : ascii := "}"%char.

(** [field = None]: scanning literal text.  [field = Some name]: inside a
    replacement field, [name] being what was read of it so far. *)
Fixpoint render (field : option string) (s : string) : fmt_result :=
  match field, s with
  | None, EmptyString => Rendered ""
  | None, String c rest =>
      if Ascii.eqb c lbrace then
        match rest with
        | EmptyString => Fails ValueError
        | String c' rest' =>
            if Ascii.eqb c' lbrace then emit "{" (render None rest')
            else render (Some "") rest
        end
      else if Ascii.eqb c rbrace then
        match rest with
        | EmptyString => Fails ValueError
        | String c' rest' =>
            if Ascii.eqb c' rbrace then emit "}" (render None rest')
            else Fails ValueError
        end
      else emit (String c "") (render None rest)
  | Some name, EmptyString => Beyond
  | Some name, String c rest =>
      if Ascii.eqb c rbrace then
        if String.eqb name "width" then emit "320" (render None rest)
        else if is_identifier name then Fails KeyError
        else Beyond
      else if is_ident_char c then render (Some (name ++ String c ""))%string rest
      else Beyond
  end.

(* ================================================================== *)
(** ** Results and the warning channel *)
(* ================================================================== *)

(** The dict [res] built by [_extract_episode], one field per key. *)
Module Episode.
Record t : Type := mk {
  id : pyval;
  title : pyval;
  description : pyval;
  url : pyval;
  duration : pyval;
  upload_date : pyval;
  is_live : bool;
  thumbnail : pyval;
  channel : pyval;
  series : pyval;
  categories : pyval
}.
End Episode.

(** The dict [res] built by the playlist routes. *)
Module Playlist.
Record t : Type := mk {
  id : pyval;
  title : pyval;
  _type : string;
  entries : list Episode.t
}.
End Playlist.

(** One call [self.report_warning(template % arg, video_id=video_id)]. *)
Module Warning.
Record t : Type := mk {
  template : string;
  arg : pyval;
  video_id : pyval
}.
End Warning.

(** A computation that may report warnings and may raise: it is given the
    warnings reported so far and gives back its outcome and the warnings
    reported by the time it ends, whether it returned or raised. *)
Definition M (A : Type) : Type := list Warning.t -> outcome A * list Warning.t.

Definition ret {A : Type} (a : A) : M A := fun log => (Return a, log).

Definition raise {A : Type} (e : exn) : M A := fun log => (Raise e, log).

Definition lift {A : Type} (o : outcome A) : M A := fun log => (o, log).

Definition bind {A B : Type} (m : M A) (f : A -> M B) : M B :=
  fun log =>
    match m log with
    | (Return a, log') => f a log'
    | (Raise e, log') => (Raise e, log')
    end.

(** [try: body / except ExtractorError: handler]. *)
Definition try_except_ExtractorError {A : Type} (body handler : M A) : M A :=
  fun log =>
    match body log with
    | (Raise (ExtractorError _), log') => handler log'
    | other => other
    end.

Definition report_warning (template : string) (arg video_id : pyval) : M unit :=
  fun log => (Return tt, log ++ [Warning.mk template arg video_id]).

Declare Scope M_scope.
Delimit Scope M_scope with M.
Notation "x <- m ;; k" := (bind m (fun x => k))
  (at level 61, m at next level, right associativity) : M_scope.
Notation "m ;; k" := (bind m (fun _ => k))
  (at level 61, right associativity) : M_scope.

(** The double quote of the GraphQL query texts. *)
Definition dquote : string := String (ascii_of_nat 34) EmptyString.

Definition api_url : string := "https://api.ardaudiothek.de/graphql".

Definition episode_fields : string :=
  "id,title,audios{url,downloadUrl},image{url1X1},duration,publishDate,description:synopsis,programSet{title,publicationService{organizationName,genre}}".

Definition garbage_entry : string :=
  "Could not find download url for entry %s. Might be a duplicate/garbage entry.".

(** *** Thumbnail templates *)

(** A URL template: literal text without braces, and width placeholders. *)
Inductive piece : Type :=
| Lit (text : string)
| Width.

Definition brace_free (s : string) : bool :=
  forallb (fun c => negb (Ascii.eqb c lbrace) && negb (Ascii.eqb c rbrace))
          (list_ascii_of_string s).

Definition well_formed (p : piece) : Prop :=
  match p with
  | Lit text => brace_free text = true
  | Width => True
  end.

(** The template as upstream sends it. *)
Fixpoint template_text (t : list piece) : string :=
  match t with
  | [] => ""
  | Lit text :: rest => (text ++ template_text rest)%string
  | Width :: rest => ("{width}" ++ template_text rest)%string
  end.

(** The template with every width placeholder replaced by 320. *)
Fixpoint resolved (t : list piece) : string :=
  match t with
  | [] => ""
  | Lit text :: rest => (text ++ resolved rest)%string
  | Width :: rest => ("320" ++ resolved rest)%string
  end.

(** *** Sample collaborators and documents

    A host whose URL matcher takes the last segment of the path and whose
    date parser knows no date, an interpreter that rejects every template [render]
    leaves to it, and a few upstream documents. *)

Fixpoint segments (url current : string) : list string :=
  match url with
  | EmptyString => [current]
  | String c rest =>
      if Ascii.eqb c "/"%char then current :: segments rest ""
      else segments rest (current ++ String c "")%string
  end.

Definition sample_match_id (valid_url url : string) : string :=
  last (filter (fun segment => negb (String.eqb segment "")) (segments url "")) "".
Definition sample_strdate (date_str : pyval) : pyval := PyNone.
Definition sample_format_beyond (template : string) : outcome pyval :=
  Raise (Builtin ValueError).

Definition audio (url download : pyval) : pyval :=
  PyList [PyDict [("url", url); ("downloadUrl", download)]].

Definition node_streaming : pyval :=
  PyDict [("id", PyStr "10525879"); ("title", PyStr "X");
          ("audios", audio (PyStr "https://media/stream.mp3") (PyStr "https://media/download.mp3"));
          ("image", PyDict [("url1X1", PyStr "https://img/{width}/a.jpg")]);
          ("duration", PyInt 600)].

Definition node_download_only : pyval :=
  PyDict [("id", PyStr "7"); ("audios", audio PyNone (PyStr "https://media/download.mp3"))].

Definition node_empty_streaming : pyval :=
  PyDict [("id", PyStr "8"); ("audios", audio (PyStr "") (PyStr "https://media/download.mp3"))].

Definition node_without_url : pyval :=
  PyDict [("id", PyStr "9"); ("title", PyStr "no audio"); ("audios", PyList [])].

Definition node_without_url_or_id : pyval :=
  PyDict [("title", PyStr "garbage")].

Definition record_streaming : Episode.t :=
  Episode.mk (PyStr "10525879") (PyStr "X") PyNone (PyStr "https://media/stream.mp3")
    (PyInt 600) PyNone false (PyStr "https://img/320/a.jpg") PyNone PyNone PyNone.

Definition record_download_only : Episode.t :=
  Episode.mk (PyStr "7") PyNone PyNone (PyStr "https://media/download.mp3")
    PyNone PyNone false PyNone PyNone PyNone PyNone.

Definition warning_9 : Warning.t := Warning.mk garbage_entry (PyStr "9") (PyStr "9").

Definition sendung_url : string :=
  "https://www.ardaudiothek.de/sendung/korridore-mystery-horror-serie/12187357/".
Definition episode_url : string :=
  "https://www.ardaudiothek.de/episode/a/b/c/10525879/".
Definition suche_url : string := "https://www.ardaudiothek.de/suche/termite/".

Definition response (kind : string) (nodes : list pyval) : pyval :=
  PyDict [("data", PyDict [(kind, PyDict [("id", PyStr "12187357"); ("title", PyStr "Korridore");
                                          ("items", PyDict [("nodes", PyList nodes)])])])].

Definition search_response (nodes : list pyval) : pyval :=
  PyDict [("data", PyDict [("search", PyDict [("items", PyDict [("nodes", PyList nodes)])])])].

Definition node_second_variant_only : pyval :=
  PyDict [("id", PyStr "11");
          ("audios", PyList [PyDict [("url", PyNone)];
                             PyDict [("url", PyStr "https://media/second.mp3")]])].

Definition node_two_placeholders : pyval :=
  PyDict [("id", PyStr "14");
          ("audios", audio (PyStr "https://media/stream.mp3") PyNone);
          ("image", PyDict [("url1X1", PyStr "https://img/{width}x{height}/a.jpg")])].

Definition record_two_placeholders : Episode.t :=
  Episode.mk (PyStr "14") PyNone PyNone (PyStr "https://media/stream.mp3")
    PyNone PyNone false PyNone PyNone PyNone PyNone.

Definition node_lone_brace : pyval :=
  PyDict [("id", PyStr "12");
          ("audios", audio (PyStr "https://media/stream.mp3") PyNone);
          ("image", PyDict [("url1X1", PyStr "https://img/{width}}/a.jpg")])].

Definition node_other_placeholder : pyval :=
  PyDict [("id", PyStr "13");
          ("audios", audio (PyStr "https://media/stream.mp3") PyNone);
          ("image", PyDict [("url1X1", PyStr "https://img/{height}/a.jpg")])].

Definition record_other_placeholder : Episode.t :=
  Episode.mk (PyStr "13") PyNone PyNone (PyStr "https://media/stream.mp3")
    PyNone PyNone false PyNone PyNone PyNone PyNone.

(** A host whose upstream call fails. *)
Definition failing_download (e : exn) (url_or_request : string) (video_id : pyval)
    (query : string) : outcome pyval :=
  Raise e.

(** A root object, as upstream may hold it under either root field. *)
Definition root_object : pyval :=
  PyDict [("id", PyStr "56081830"); ("title", PyStr "Essen");
          ("items", PyDict [("nodes", PyList [node_streaming; node_without_url])])].

Definition node_dated : pyval :=
  PyDict [("id", PyStr "10525879");
          ("audios", audio (PyStr "https://media/stream.mp3") PyNone);
          ("publishDate", PyStr "2022-05-21T09:40:00+02:00")].

(** A date parser that keeps the digits of the leading date of a str. *)
Definition digits_strdate (date_str : pyval) : pyval :=
  match date_str with
  | PyStr s =>
      PyStr (String.concat "" [substring 0 4 s; substring 5 2 s; substring 8 2 s])
  | _ => PyNone
  end.

Definition sample_download (document : pyval) (url_or_request : string) (video_id : pyval)
    (query : string) : outcome pyval :=
  Return document.

(* ================================================================== *)
(** ** The extractor *)
(* ================================================================== *)

Section ARDAudiothek.

(** What the host framework and the interpreter supply.

    [_match_id valid_url url] is [InfoExtractor._match_id]: the group
    [id] of the match of the class's [_VALID_URL] against [url].

    [_download_json url_or_request video_id query] is
    [InfoExtractor._download_json] with the Accept header the extractor
    always sends; [query] is the text under the key ['query'].  It gives
    the decoded response, or raises.

    [unified_strdate] is the date parser of [youtube_dl.utils]: None or a
    publish timestamp in, None or a date string out.

    [str_format_beyond template] is what [template.format(width=320)]
    gives on a template outside the part of [str.format] modelled by
    [render]. *)
Variable _match_id : string -> string -> string.
Variable _download_json : string -> pyval -> string -> outcome pyval.
Variable unified_strdate : pyval -> pyval.
Variable str_format_beyond : string -> outcome pyval.

(** [v.format(width=320)]: only a str has the method. *)
Definition format_width (v : pyval) : outcome pyval :=
  match v with
  | PyStr template =>
      match render None template with
      | Rendered s => Return (PyStr s)
      | Fails e => Raise (Builtin e)
      | Beyond => str_format_beyond template
      end
  | _ => Raise (Builtin AttributeError)
  end.

(** *** ARDAudiothekBaseIE *)

Definition streaming_url : pyval -> outcome pyval :=
  get_path [KStr "audios"; KIdx 0; KStr "url"].

Definition download_url : pyval -> outcome pyval :=
  get_path [KStr "audios"; KIdx 0; KStr "downloadUrl"].

Definition thumbnail_getter (x : pyval) : outcome pyval :=
  (template <- get_path [KStr "image"; KStr "url1X1"] x ;;
   format_width template)%outcome.

Definition _extract_episode (ep_data : pyval) : outcome Episode.t :=
  (id <- try_get ep_data [get_path [KStr "id"]] (Some compat_str) ;;
   title <- try_get ep_data [get_path [KStr "title"]] (Some compat_str) ;;
   description <- try_get ep_data [get_path [KStr "description"]] (Some compat_str) ;;
   url <- try_get ep_data [streaming_url; download_url] (Some compat_str) ;;
   if negb (truthy url) then Raise MissingMediaURL
   else
     duration <- try_get ep_data [get_path [KStr "duration"]] (Some int) ;;
     publishDate <- try_get ep_data [get_path [KStr "publishDate"]] (Some compat_str) ;;
     thumbnail <- try_get ep_data [thumbnail_getter] (Some compat_str) ;;
     channel <- try_get ep_data
       [get_path [KStr "programSet"; KStr "publicationService"; KStr "organizationName"]]
       (Some compat_str) ;;
     series <- try_get ep_data [get_path [KStr "programSet"; KStr "title"]] (Some compat_str) ;;
     categories <- try_get ep_data
       [get_path [KStr "programSet"; KStr "publicationService"; KStr "genre"]]
       (Some compat_str) ;;
     Return (Episode.mk id title description url duration
               (unified_strdate publishDate) false thumbnail channel series categories))%outcome.

Definition playlist_query (playlist_type playlist_id : string) : string :=
  String.concat ""
    ["{"; playlist_type; "(id:"; dquote; playlist_id; dquote;
     "){id,title,numberOfElements,items{nodes{"; episode_fields; "}}}}"].

(** The loop [for entry in entries] of [_extract_sammlung_sendung];
    [res_entries] is [res['entries']] as it stands when the loop reaches
    [entries]. *)
Fixpoint sammlung_sendung_entries (entries : list pyval) (res_entries : list Episode.t)
    : M (list Episode.t) :=
  match entries with
  | [] => ret res_entries
  | entry :: rest =>
      (res_entries' <-
         try_except_ExtractorError
           (episode <- lift (_extract_episode entry) ;;
            ret (res_entries ++ [episode]))
           (arg <- lift (subscript entry (KStr "id")) ;;
            video_id <- lift (subscript entry (KStr "id")) ;;
            report_warning garbage_entry arg video_id ;;
            ret res_entries) ;;
       sammlung_sendung_entries rest res_entries')%M
  end.

(** [try_get] with [list] gives a list or None and None is falsy, so the
    last branch below is never taken (lemma [try_get_list_shape]); a
    value that is not iterable would raise TypeError there. *)
Definition _extract_sammlung_sendung (playlist_id playlist_type : string) : M Playlist.t :=
  (result_data <- lift (_download_json api_url (PyStr playlist_id)
                          (playlist_query playlist_type playlist_id)) ;;
   entries <- lift (try_get result_data
                      [get_path [KStr "data"; KStr playlist_type; KStr "items"; KStr "nodes"]]
                      (Some list_)) ;;
   if negb (truthy entries) then raise (EmptyPlaylist "playlist data")
   else
     id <- lift (try_get result_data
                   [get_path [KStr "data"; KStr playlist_type; KStr "id"]] (Some compat_str)) ;;
     title <- lift (try_get result_data
                      [get_path [KStr "data"; KStr playlist_type; KStr "title"]] (Some compat_str)) ;;
     match entries with
     | PyList nodes =>
         res_entries <- sammlung_sendung_entries nodes [] ;;
         ret (Playlist.mk id title "playlist" res_entries)
     | _ => raise (Builtin TypeError)
     end)%M.

(** *** ARDAudiothekEpisodeIE *)

Definition ARDAudiothekEpisodeIE_VALID_URL : string :=
  "https?://(?:www\.)?ardaudiothek\.de/episode/(?:[^/]+)/(?:[^/]+)/(?:[^/]+)/(?P<id>[0-9]+)(?:/.*)?".

Definition episode_query (episode_id : string) : string :=
  String.concat ""
    ["query{item(id:"; dquote; episode_id; dquote; "){"; episode_fields; "}}"].

Definition ARDAudiothekEpisodeIE_real_extract (url : string) : M Episode.t :=
  let episode_id := _match_id ARDAudiothekEpisodeIE_VALID_URL url in
  (result_data <- lift (_download_json api_url (PyStr episode_id) (episode_query episode_id)) ;;
   ep_data <- lift (try_get result_data [get_path [KStr "data"; KStr "item"]] (Some dict)) ;;
   if negb (truthy ep_data) then raise NoEpisodeData
   else lift (_extract_episode ep_data))%M.

(** *** ARDAudiothekSammlungIE and ARDAudiothekSendungIE *)

Definition ARDAudiothekSammlungIE_VALID_URL : string :=
  "https?://(?:www\.)?ardaudiothek\.de/sammlung/(?:[^/]+)/(?P<id>[0-9]+)(?:/.*)?".

Definition ARDAudiothekSammlungIE_real_extract (url : string) : M Playlist.t :=
  let playlist_id := _match_id ARDAudiothekSammlungIE_VALID_URL url in
  let playlist_type := "editorialCollection" in
  _extract_sammlung_sendung playlist_id playlist_type.

Definition ARDAudiothekSendungIE_VALID_URL : string :=
  "https?://(?:www\.)?ardaudiothek\.de/sendung/(?:[^/]+)/(?P<id>[0-9]+)(?:/.*)?".

Definition ARDAudiothekSendungIE_real_extract (url : string) : M Playlist.t :=
  let playlist_id := _match_id ARDAudiothekSendungIE_VALID_URL url in
  let playlist_type := "programSet" in
  _extract_sammlung_sendung playlist_id playlist_type.

(** *** ARDAudiothekSucheIE *)

Definition ARDAudiothekSucheIE_VALID_URL : string :=
  "https?://(?:www\.)?ardaudiothek\.de/suche/(?P<id>.+)/".

Definition search_query (search_str : string) : string :=
  String.concat ""
    ["{search(query:"; dquote; search_str; dquote; "){items{totalCount nodes{";
     episode_fields; "}}}}"].

(** The loop [for entry in entries] of the search route, written out a
    second time as the source does. *)
Fixpoint suche_entries (entries : list pyval) (res_entries : list Episode.t)
    : M (list Episode.t) :=
  match entries with
  | [] => ret res_entries
  | entry :: rest =>
      (res_entries' <-
         try_except_ExtractorError
           (episode <- lift (_extract_episode entry) ;;
            ret (res_entries ++ [episode]))
           (arg <- lift (subscript entry (KStr "id")) ;;
            video_id <- lift (subscript entry (KStr "id")) ;;
            report_warning garbage_entry arg video_id ;;
            ret res_entries) ;;
       suche_entries rest res_entries')%M
  end.

Definition ARDAudiothekSucheIE_real_extract (url : string) : M Playlist.t :=
  let search_str := _match_id ARDAudiothekSucheIE_VALID_URL url in
  (result_data <- lift (_download_json api_url PyNone (search_query search_str)) ;;
   entries <- lift (try_get result_data
                      [get_path [KStr "data"; KStr "search"; KStr "items"; KStr "nodes"]]
                      (Some list_)) ;;
   if negb (truthy entries) then raise (EmptyPlaylist "search results")
   else
     match entries with
     | PyList nodes =>
         res_entries <- suche_entries nodes [] ;;
         ret (Playlist.mk PyNone (PyStr search_str) "playlist" res_entries)
     | _ => raise (Builtin TypeError)
     end)%M.

(** *** The three playlist routes, as the host dispatches to them *)

Inductive playlist_route : Type := Sammlung | Sendung | Suche.

Definition playlist_real_extract (route : playlist_route) : string -> M Playlist.t :=
  match route with
  | Sammlung => ARDAudiothekSammlungIE_real_extract
  | Sendung => ARDAudiothekSendungIE_real_extract
  | Suche => ARDAudiothekSucheIE_real_extract
  end.

(** The root field of the response a route reads. *)
Definition route_kind (route : playlist_route) : string :=
  match route with
  | Sammlung => "editorialCollection"
  | Sendung => "programSet"
  | Suche => "search"
  end.

(** The one upstream call a route makes for [url]. *)
Definition route_response (route : playlist_route) (url : string) : outcome pyval :=
  match route with
  | Sammlung =>
      let playlist_id := _match_id ARDAudiothekSammlungIE_VALID_URL url in
      _download_json api_url (PyStr playlist_id) (playlist_query "editorialCollection" playlist_id)
  | Sendung =>
      let playlist_id := _match_id ARDAudiothekSendungIE_VALID_URL url in
      _download_json api_url (PyStr playlist_id) (playlist_query "programSet" playlist_id)
  | Suche =>
      let search_str := _match_id ARDAudiothekSucheIE_VALID_URL url in
      _download_json api_url PyNone (search_query search_str)
  end.

Definition nodes_path (kind : string) : list key :=
  [KStr "data"; KStr kind; KStr "items"; KStr "nodes"].

Definition empty_message (route : playlist_route) : string :=
  match route with
  | Suche => "search results"
  | _ => "playlist data"
  end.

(** *** Vocabulary of the statements *)

(** What [try_get] with one path getter and a type amounts to. *)
Definition field (x : pyval) (path : list key) (isinstance : pyval -> bool) : pyval :=
  match get_path path x with
  | Return v => if isinstance v then v else PyNone
  | Raise _ => PyNone
  end.

(** The url a node offers: the streaming url when it is a str, else the
    download url when that is a str, else None. *)
Definition offered_url (x : pyval) : pyval :=
  match streaming_url x with
  | Return (PyStr s) => PyStr s
  | _ =>
      match download_url x with
      | Return (PyStr d) => PyStr d
      | _ => PyNone
      end
  end.

(** What becomes of one node in a playlist loop: its record is appended,
    or it is dropped with a warning carrying its id, or an exception
    leaves the loop. *)
Inductive fate : Type :=
| Kept (episode : Episode.t)
| Dropped (id : pyval)
| Escapes (e : exn).

Definition fate_of (entry : pyval) : fate :=
  match _extract_episode entry with
  | Return episode => Kept episode
  | Raise (ExtractorError _) =>
      match subscript entry (KStr "id") with
      | Return id => Dropped id
      | Raise e => Escapes e
      end
  | Raise e => Escapes e
  end.

Definition stays_inside (entry : pyval) : Prop :=
  forall e, fate_of entry <> Escapes e.

Definition kept_entries (nodes : list pyval) : list Episode.t :=
  flat_map (fun n => match fate_of n with Kept episode => [episode] | _ => [] end) nodes.

Definition dropped_warnings (nodes : list pyval) : list Warning.t :=
  flat_map (fun n => match fate_of n with
                     | Dropped id => [Warning.mk garbage_entry id id]
                     | _ => []
                     end) nodes.

(** The nodes whose normalisation raises. *)
Definition failing (nodes : list pyval) : list pyval :=
  filter (fun n => match _extract_episode n with Raise _ => true | Return _ => false end) nodes.

(** Two runs of an assembler agree: the same warnings, and either both
    return playlists with the same entries or both raise exceptions of
    the same class. *)
Definition same_assembly (a b : outcome Playlist.t * list Warning.t) : Prop :=
  snd a = snd b /\
  match fst a, fst b with
  | Return p, Return q =>
      Playlist.entries p = Playlist.entries q /\ Playlist._type p = Playlist._type q
  | Raise e1, Raise e2 => same_class e1 e2
  | _, _ => False
  end.

(** The id and title a route gives its playlist. *)
Definition route_playlist_id (route : playlist_route) (result_data : pyval) : pyval :=
  match route with
  | Suche => PyNone
  | _ => field result_data [KStr "data"; KStr (route_kind route); KStr "id"] compat_str
  end.

Definition route_playlist_title (route : playlist_route) (url : string) (result_data : pyval)
    : pyval :=
  match route with
  | Suche => PyStr (_match_id ARDAudiothekSucheIE_VALID_URL url)
  | _ => field result_data [KStr "data"; KStr (route_kind route); KStr "title"] compat_str
  end.

(** The records of the nodes that normalise, in upstream order. *)
Definition survivors (nodes : list pyval) : list Episode.t :=
  flat_map (fun n => match _extract_episode n with
                     | Return episode => [episode]
                     | Raise _ => []
                     end) nodes.

(** The warning that names a dropped node by its id. *)
Definition warning_of (n : pyval) : Warning.t :=
  match subscript n (KStr "id") with
  | Return id => Warning.mk garbage_entry id id
  | Raise _ => Warning.mk garbage_entry PyNone PyNone
  end.

(** A node the playlist loop can deal with: it normalises, or it fails
    for want of a url and carries an id to be named by. *)
Definition normalises_or_is_named (n : pyval) : Prop :=
  (exists episode, _extract_episode n = Return episode)
  \/ (_extract_episode n = Raise MissingMediaURL
      /\ exists id, subscript n (KStr "id") = Return id).

(** What one audio variant offers: its streaming url when that is a str,
    else its download url when that is a str, else None. *)
Definition variant_url (variant : pyval) : pyval :=
  match subscript variant (KStr "url") with
  | Return (PyStr s) => PyStr s
  | _ =>
      match subscript variant (KStr "downloadUrl") with
      | Return (PyStr d) => PyStr d
      | _ => PyNone
      end
  end.

(** None, or an instance of the type. *)
Definition none_or (isinstance : pyval -> bool) (v : pyval) : Prop :=
  v = PyNone \/ isinstance v = true.

(** A record whose url is a str that is not empty. *)
Definition has_url (episode : Episode.t) : Prop :=
  exists s, Episode.url episode = PyStr s /\ s <> "".

(** A warning of the playlist loops: the fixed text, and the same value
    named in the text and given as [video_id]. *)
Definition well_shaped (w : Warning.t) : Prop :=
  Warning.template w = garbage_entry /\ Warning.arg w = Warning.video_id w.

(* ================================================================== *)
(** ** Properties of the accessors *)
(* ================================================================== *)

Lemma subscript_raises (v : pyval) (k : key) (e : exn) :
  subscript v k = Raise e -> passed_over e = true.
Proof.
  destruct v, k; simpl;
    try (intros Hraise; inversion Hraise; reflexivity).
  - destruct (nth_error (codepoints s) n); intros Hraise; inversion Hraise; reflexivity.
  - destruct (nth_error items n); intros Hraise; inversion Hraise; reflexivity.
  - destruct (dict_get fields s); intros Hraise; inversion Hraise; reflexivity.
Qed.

Lemma subscript_name_raises (v : pyval) (name : string) (e : exn) :
  subscript v (KStr name) = Raise e -> e = Builtin KeyError \/ e = Builtin TypeError.
Proof.
  destruct v; simpl; try (intros Hraise; inversion Hraise; now auto).
  destruct (dict_get fields name); intros Hraise; inversion Hraise; auto.
Qed.

Lemma get_path_raises (path : list key) :
  forall (x : pyval) (e : exn), get_path path x = Raise e -> passed_over e = true.
Proof.
  induction path as [|k rest IH]; intros x e; simpl.
  - discriminate.
  - destruct (subscript x k) as [v|e'] eqn:Hk; simpl.
    + apply IH.
    + intros H; inversion H; subst. eapply subscript_raises; eassumption.
Qed.

Lemma try_get_path (x : pyval) (path : list key) (isinstance : pyval -> bool) :
  try_get x [get_path path] (Some isinstance) = Return (field x path isinstance).
Proof.
  unfold field; simpl.
  destruct (get_path path x) as [v|e] eqn:Hp.
  - destruct (isinstance v); reflexivity.
  - rewrite (get_path_raises _ _ _ Hp). reflexivity.
Qed.

Lemma field_shape (x : pyval) (path : list key) (isinstance : pyval -> bool) :
  field x path isinstance = PyNone \/ isinstance (field x path isinstance) = true.
Proof.
  unfold field.
  destruct (get_path path x) as [v|e]; auto.
  destruct (isinstance v) eqn:Hv; auto.
Qed.

(** [try_get] with [list] gives None or a list: the last branch of the
    playlist routes is dead. *)
Lemma try_get_list_shape (x : pyval) (path : list key) :
  field x path list_ = PyNone \/ exists nodes, field x path list_ = PyList nodes.
Proof.
  destruct (field_shape x path list_) as [H|H]; auto.
  destruct (field x path list_); try discriminate H. eauto.
Qed.

Lemma try_get_url (x : pyval) :
  try_get x [streaming_url; download_url] (Some compat_str) = Return (offered_url x).
Proof.
  unfold offered_url; simpl.
  destruct (streaming_url x) as [v|e] eqn:Hs.
  - destruct v; simpl; try reflexivity;
      (destruct (download_url x) as [d|e] eqn:Hd;
       [ destruct d; reflexivity
       | unfold download_url in Hd; rewrite (get_path_raises _ _ _ Hd); reflexivity ]).
  - unfold streaming_url in Hs. rewrite (get_path_raises _ _ _ Hs).
    destruct (download_url x) as [d|e'] eqn:Hd.
    + destruct d; reflexivity.
    + unfold download_url in Hd. rewrite (get_path_raises _ _ _ Hd). reflexivity.
Qed.

Lemma offered_url_shape (x : pyval) :
  offered_url x = PyNone \/ exists s, offered_url x = PyStr s.
Proof.
  unfold offered_url.
  destruct (streaming_url x) as [[]|]; eauto;
    destruct (download_url x) as [[]|]; eauto.
Qed.

(** *** The modelled part of [str.format] *)

Lemma emit_empty (r : fmt_result) : emit "" r = r.
Proof. destruct r; reflexivity. Qed.

Lemma emit_cons (c : ascii) (text : string) (r : fmt_result) :
  emit (String c "") (emit text r) = emit (String c text) r.
Proof. destruct r; reflexivity. Qed.

Lemma render_literal (text rest : string) :
  brace_free text = true ->
  render None (text ++ rest) = emit text (render None rest).
Proof.
  induction text as [|c text IH]; intros Hfree.
  - simpl. symmetry. apply emit_empty.
  - unfold brace_free in Hfree. simpl in Hfree.
    apply andb_prop in Hfree. destruct Hfree as [Hc Htext].
    apply andb_prop in Hc. destruct Hc as [Hl Hr].
    apply negb_true_iff in Hl. apply negb_true_iff in Hr.
    change (render None (String c (text ++ rest))
            = emit (String c text) (render None rest)).
    cbn [render]. rewrite Hl, Hr.
    rewrite (IH Htext). apply emit_cons.
Qed.

Lemma render_placeholder (rest : string) :
  render None ("{width}" ++ rest) = emit "320" (render None rest).
Proof. reflexivity. Qed.

Lemma render_template (t : list piece) :
  Forall well_formed t -> render None (template_text t) = Rendered (resolved t).
Proof.
  induction 1 as [|p t Hp _ IH]; [reflexivity|].
  destruct p as [text|]; cbn [template_text resolved].
  - rewrite (render_literal _ _ Hp), IH. reflexivity.
  - rewrite render_placeholder, IH. reflexivity.
Qed.

Lemma brace_free_app (a b : string) :
  brace_free (a ++ b) = brace_free a && brace_free b.
Proof.
  unfold brace_free.
  induction a as [|c a IH]; [reflexivity|].
  simpl. rewrite IH. apply andb_assoc.
Qed.

Lemma resolved_brace_free (t : list piece) :
  Forall well_formed t -> brace_free (resolved t) = true.
Proof.
  induction 1 as [|p t Hp _ IH]; [reflexivity|].
  destruct p as [text|]; cbn [resolved]; rewrite brace_free_app, IH.
  - rewrite Hp. reflexivity.
  - reflexivity.
Qed.

(* ================================================================== *)
(** ** Properties of the episode normaliser *)
(* ================================================================== *)

(** The normaliser in one equation: the url decides between failure and
    a record, and the thumbnail is the only field whose getter can raise
    past [try_get]. *)
Lemma _extract_episode_eq (ep_data : pyval) :
  _extract_episode ep_data =
  if negb (truthy (offered_url ep_data)) then Raise MissingMediaURL
  else
    obind (try_get ep_data [thumbnail_getter] (Some compat_str)) (fun thumbnail =>
      Return (Episode.mk
                (field ep_data [KStr "id"] compat_str)
                (field ep_data [KStr "title"] compat_str)
                (field ep_data [KStr "description"] compat_str)
                (offered_url ep_data)
                (field ep_data [KStr "duration"] int)
                (unified_strdate (field ep_data [KStr "publishDate"] compat_str))
                false
                thumbnail
                (field ep_data
                   [KStr "programSet"; KStr "publicationService"; KStr "organizationName"]
                   compat_str)
                (field ep_data [KStr "programSet"; KStr "title"] compat_str)
                (field ep_data
                   [KStr "programSet"; KStr "publicationService"; KStr "genre"]
                   compat_str))).
Proof.
  unfold _extract_episode.
  repeat (rewrite ?try_get_path, ?try_get_url; cbn [obind]).
  destruct (negb (truthy (offered_url ep_data))); [reflexivity|].
  repeat (rewrite ?try_get_path; cbn [obind]).
  destruct (try_get ep_data [thumbnail_getter] (Some compat_str)); cbn [obind];
    [|reflexivity].
  repeat (rewrite ?try_get_path; cbn [obind]).
  reflexivity.
Qed.

Lemma extract_without_url (ep_data : pyval) :
  truthy (offered_url ep_data) = false ->
  _extract_episode ep_data = Raise MissingMediaURL.
Proof.
  intros Hurl. rewrite _extract_episode_eq, Hurl. reflexivity.
Qed.

Lemma extract_returns (ep_data : pyval) (r : Episode.t) :
  _extract_episode ep_data = Return r ->
  truthy (offered_url ep_data) = true
  /\ Episode.url r = offered_url ep_data
  /\ try_get ep_data [thumbnail_getter] (Some compat_str) = Return (Episode.thumbnail r)
  /\ Episode.is_live r = false.
Proof.
  rewrite _extract_episode_eq.
  destruct (truthy (offered_url ep_data)); cbn [negb]; [|discriminate].
  destruct (try_get ep_data [thumbnail_getter] (Some compat_str)) as [thumbnail|e];
    cbn [obind]; [|discriminate].
  intros Hr. inversion Hr; subst r. simpl. auto.
Qed.

(** The normaliser returns as soon as a url is found and the thumbnail
    getter raises nothing that [try_get] lets through. *)
Lemma extract_succeeds (ep_data thumbnail : pyval) :
  truthy (offered_url ep_data) = true ->
  try_get ep_data [thumbnail_getter] (Some compat_str) = Return thumbnail ->
  exists r, _extract_episode ep_data = Return r.
Proof.
  intros Hurl Hthumb. rewrite _extract_episode_eq, Hurl, Hthumb.
  cbn [negb obind]. eauto.
Qed.

Lemma offered_url_streaming (ep_data : pyval) (s : string) :
  streaming_url ep_data = Return (PyStr s) -> offered_url ep_data = PyStr s.
Proof. intros Hs. unfold offered_url. rewrite Hs. reflexivity. Qed.

(** The download url is what the node offers exactly when the streaming
    getter gives no str. *)
Lemma offered_url_fallback (ep_data : pyval) (d : string) :
  (forall s, streaming_url ep_data <> Return (PyStr s)) ->
  download_url ep_data = Return (PyStr d) ->
  offered_url ep_data = PyStr d.
Proof.
  intros Hnone Hd. unfold offered_url. rewrite Hd.
  destruct (streaming_url ep_data) as [[]|] eqn:Hs; try reflexivity.
  exfalso. eapply Hnone. reflexivity.
Qed.

Lemma offered_url_none (ep_data : pyval) :
  (forall s, streaming_url ep_data <> Return (PyStr s)) ->
  (forall s, download_url ep_data <> Return (PyStr s)) ->
  offered_url ep_data = PyNone.
Proof.
  intros Hs Hd. unfold offered_url.
  destruct (streaming_url ep_data) as [[]|] eqn:Es;
    try (exfalso; eapply Hs; reflexivity);
    destruct (download_url ep_data) as [[]|] eqn:Ed;
    try (exfalso; eapply Hd; reflexivity); reflexivity.
Qed.

Lemma thumbnail_of_template (ep_data : pyval) (t : list piece) :
  Forall well_formed t ->
  get_path [KStr "image"; KStr "url1X1"] ep_data = Return (PyStr (template_text t)) ->
  try_get ep_data [thumbnail_getter] (Some compat_str) = Return (PyStr (resolved t)).
Proof.
  intros Ht Himage. cbn [try_get]. unfold thumbnail_getter.
  rewrite Himage. cbn [obind format_width].
  rewrite (render_template t Ht). reflexivity.
Qed.

Lemma thumbnail_without_image (ep_data : pyval) :
  (forall fields, subscript ep_data (KStr "image") <> Return (PyDict fields)) ->
  try_get ep_data [thumbnail_getter] (Some compat_str) = Return PyNone.
Proof.
  intros Hnone. cbn [try_get]. unfold thumbnail_getter. cbn [get_path].
  destruct (subscript ep_data (KStr "image")) as [image|e] eqn:Himage; cbn [obind].
  - destruct image; try reflexivity.
    exfalso. eapply Hnone. reflexivity.
  - rewrite (subscript_raises _ _ _ Himage). reflexivity.
Qed.

(** C3. A node on whose first audio variant neither a streaming url nor a
    download url is found is not normalised: the normaliser raises the
    missing-url error and returns no record. *)
Theorem missing_url_is_fatal (ep_data : pyval) :
  (forall s, streaming_url ep_data <> Return (PyStr s)) ->
  (forall s, download_url ep_data <> Return (PyStr s)) ->
  _extract_episode ep_data = Raise MissingMediaURL
  /\ forall r, _extract_episode ep_data <> Return r.
Proof.
  intros Hs Hd.
  assert (Hraise : _extract_episode ep_data = Raise MissingMediaURL).
  { apply extract_without_url. rewrite (offered_url_none _ Hs Hd). reflexivity. }
  split; [exact Hraise|].
  intros r Hr. rewrite Hraise in Hr. discriminate Hr.
Qed.

Lemma truthy_nonempty (s : string) : s <> "" -> truthy (PyStr s) = true.
Proof.
  intros Hs. cbn. destruct (String.eqb_spec s ""); [contradiction|reflexivity].
Qed.

(** The record the normaliser returns once a url is offered and the
    thumbnail getter raises nothing that [try_get] lets through. *)
Lemma extract_produces (ep_data thumbnail : pyval) (s : string) :
  offered_url ep_data = PyStr s ->
  s <> "" ->
  try_get ep_data [thumbnail_getter] (Some compat_str) = Return thumbnail ->
  exists r,
    _extract_episode ep_data = Return r
    /\ Episode.url r = PyStr s
    /\ Episode.thumbnail r = thumbnail.
Proof.
  intros Hurl Hs Hthumb.
  rewrite _extract_episode_eq, Hurl, (truthy_nonempty _ Hs), Hthumb.
  cbn [negb obind]. eexists. split; [reflexivity|]. split; reflexivity.
Qed.

(** C4. When the first audio variant carries a streaming url, a record
    the normaliser returns has that url, whatever the download url is;
    and the normaliser does return such a record as soon as the
    streaming url is not empty and the thumbnail getter raises nothing
    that [try_get] lets through. *)
Theorem streaming_url_takes_priority (ep_data : pyval) (s : string) :
  streaming_url ep_data = Return (PyStr s) ->
  (forall r, _extract_episode ep_data = Return r -> Episode.url r = PyStr s)
  /\ (s <> "" ->
      forall thumbnail,
        try_get ep_data [thumbnail_getter] (Some compat_str) = Return thumbnail ->
        exists r,
          _extract_episode ep_data = Return r
          /\ Episode.url r = PyStr s
          /\ Episode.thumbnail r = thumbnail).
Proof.
  intros Hs.
  pose proof (offered_url_streaming _ _ Hs) as Hoffered.
  split.
  - intros r Hr.
    destruct (extract_returns _ _ Hr) as (_ & Hurl & _).
    rewrite Hurl. exact Hoffered.
  - intros Hnonempty thumbnail Hthumb.
    exact (extract_produces _ _ _ Hoffered Hnonempty Hthumb).
Qed.

(** C8, as the code has it.  A node that offers a url that is not empty
    is normalised, and the thumbnail of its record is: the template with
    every width placeholder replaced by 320, no brace left in it, when
    the image object carries a square-aspect template made of literal
    text without braces and of width placeholders only; None when the
    node has no image object. *)
Theorem thumbnail_width_is_320 (ep_data : pyval) (s : string) :
  offered_url ep_data = PyStr s ->
  s <> "" ->
  (forall t,
      Forall well_formed t ->
      get_path [KStr "image"; KStr "url1X1"] ep_data = Return (PyStr (template_text t)) ->
      exists r,
        _extract_episode ep_data = Return r
        /\ Episode.thumbnail r = PyStr (resolved t)
        /\ brace_free (resolved t) = true)
  /\ ((forall fields, subscript ep_data (KStr "image") <> Return (PyDict fields)) ->
      exists r,
        _extract_episode ep_data = Return r
        /\ Episode.thumbnail r = PyNone).
Proof.
  intros Hurl Hs.
  split.
  - intros t Ht Himage.
    destruct (extract_produces _ _ _ Hurl Hs (thumbnail_of_template _ _ Ht Himage))
      as (r & Hr & _ & Hthumb).
    exists r. split; [exact Hr|]. split; [exact Hthumb|].
    apply resolved_brace_free. exact Ht.
  - intros Hnone.
    destruct (extract_produces _ _ _ Hurl Hs (thumbnail_without_image _ Hnone))
      as (r & Hr & _ & Hthumb).
    exists r. split; [exact Hr|exact Hthumb].
Qed.

(** C10. A streaming url that is present and is the empty string is what
    [try_get] returns, the download url is not consulted, and the
    normaliser raises the missing-url error whatever the download url. *)
Theorem empty_streaming_url_is_missing (ep_data : pyval) :
  streaming_url ep_data = Return (PyStr "") ->
  try_get ep_data [streaming_url; download_url] (Some compat_str) = Return (PyStr "")
  /\ _extract_episode ep_data = Raise MissingMediaURL.
Proof.
  intros Hs.
  pose proof (offered_url_streaming _ _ Hs) as Hurl.
  split.
  - rewrite try_get_url, Hurl. reflexivity.
  - apply extract_without_url. rewrite Hurl. reflexivity.
Qed.

(* ================================================================== *)
(** ** Properties of the playlist loops *)
(* ================================================================== *)

Lemma sammlung_sendung_step (entry : pyval) (rest : list pyval)
    (res_entries : list Episode.t) (log : list Warning.t) :
  sammlung_sendung_entries (entry :: rest) res_entries log =
  match fate_of entry with
  | Kept episode => sammlung_sendung_entries rest (res_entries ++ [episode]) log
  | Dropped id =>
      sammlung_sendung_entries rest res_entries (log ++ [Warning.mk garbage_entry id id])
  | Escapes e => (Raise e, log)
  end.
Proof.
  cbn [sammlung_sendung_entries].
  unfold fate_of, bind, try_except_ExtractorError, lift, ret, report_warning.
  destruct (_extract_episode entry) as [episode|[b|msg]]; try reflexivity.
  destruct (subscript entry (KStr "id")); reflexivity.
Qed.

Lemma suche_step (entry : pyval) (rest : list pyval)
    (res_entries : list Episode.t) (log : list Warning.t) :
  suche_entries (entry :: rest) res_entries log =
  match fate_of entry with
  | Kept episode => suche_entries rest (res_entries ++ [episode]) log
  | Dropped id => suche_entries rest res_entries (log ++ [Warning.mk garbage_entry id id])
  | Escapes e => (Raise e, log)
  end.
Proof.
  cbn [suche_entries].
  unfold fate_of, bind, try_except_ExtractorError, lift, ret, report_warning.
  destruct (_extract_episode entry) as [episode|[b|msg]]; try reflexivity.
  destruct (subscript entry (KStr "id")); reflexivity.
Qed.

(** The loop of the search route computes what the shared loop does. *)
Lemma suche_entries_agree (entries : list pyval) :
  forall res_entries log,
    suche_entries entries res_entries log = sammlung_sendung_entries entries res_entries log.
Proof.
  induction entries as [|entry rest IH]; intros res_entries log; [reflexivity|].
  rewrite suche_step, sammlung_sendung_step.
  destruct (fate_of entry); auto.
Qed.

Lemma kept_entries_cons (n : pyval) (nodes : list pyval) :
  kept_entries (n :: nodes) =
  match fate_of n with Kept episode => [episode] | _ => [] end ++ kept_entries nodes.
Proof. reflexivity. Qed.

Lemma dropped_warnings_cons (n : pyval) (nodes : list pyval) :
  dropped_warnings (n :: nodes) =
  match fate_of n with
  | Dropped id => [Warning.mk garbage_entry id id]
  | _ => []
  end ++ dropped_warnings nodes.
Proof. reflexivity. Qed.

Lemma dropped_warnings_app (pre post : list pyval) :
  dropped_warnings (pre ++ post) = dropped_warnings pre ++ dropped_warnings post.
Proof. unfold dropped_warnings. apply flat_map_app. Qed.

(** While no exception leaves the loop, it returns the surviving records
    in upstream order after those it started with, having reported one
    warning per dropped node, in upstream order. *)
Lemma loop_runs (nodes : list pyval) :
  Forall stays_inside nodes ->
  forall res_entries log,
    sammlung_sendung_entries nodes res_entries log =
    (Return (res_entries ++ kept_entries nodes), log ++ dropped_warnings nodes).
Proof.
  induction 1 as [|n nodes Hn _ IH]; intros res_entries log.
  - simpl. unfold ret. rewrite !app_nil_r. reflexivity.
  - rewrite sammlung_sendung_step, kept_entries_cons, dropped_warnings_cons.
    destruct (fate_of n) as [episode|id|e] eqn:Hfate.
    + rewrite IH, <- app_assoc. reflexivity.
    + rewrite IH, <- app_assoc. reflexivity.
    + exfalso. exact (Hn e Hfate).
Qed.

(** The first node whose exception leaves the loop ends it, with the
    warnings of the nodes before it reported. *)
Lemma loop_escapes (pre post : list pyval) (n : pyval) (e : exn) :
  Forall stays_inside pre ->
  fate_of n = Escapes e ->
  forall res_entries log,
    sammlung_sendung_entries (pre ++ n :: post) res_entries log =
    (Raise e, log ++ dropped_warnings pre).
Proof.
  intros Hpre Hn.
  induction Hpre as [|m pre Hm _ IH]; intros res_entries log.
  - rewrite app_nil_l, sammlung_sendung_step, Hn.
    unfold dropped_warnings. cbn [flat_map]. rewrite app_nil_r. reflexivity.
  - rewrite <- app_comm_cons, sammlung_sendung_step, dropped_warnings_cons.
    destruct (fate_of m) as [episode|id|e'] eqn:Hfate.
    + rewrite IH. reflexivity.
    + rewrite IH, <- app_assoc. reflexivity.
    + exfalso. exact (Hm e' Hfate).
Qed.

Lemma loop_returned (nodes : list pyval) :
  forall res_entries log res_entries' log',
    sammlung_sendung_entries nodes res_entries log = (Return res_entries', log') ->
    Forall stays_inside nodes.
Proof.
  induction nodes as [|n nodes IH]; intros res_entries log res_entries' log' Hrun.
  - constructor.
  - rewrite sammlung_sendung_step in Hrun.
    destruct (fate_of n) as [episode|id|e] eqn:Hfate.
    + constructor; [|eapply IH; eassumption].
      intros e He. rewrite Hfate in He. discriminate He.
    + constructor; [|eapply IH; eassumption].
      intros e He. rewrite Hfate in He. discriminate He.
    + discriminate Hrun.
Qed.

Lemma kept_and_dropped (nodes : list pyval) :
  Forall stays_inside nodes ->
  length (kept_entries nodes) + length (dropped_warnings nodes) = length nodes.
Proof.
  induction 1 as [|n nodes Hn _ IH]; [reflexivity|].
  rewrite kept_entries_cons, dropped_warnings_cons, !length_app.
  destruct (fate_of n) as [episode|id|e] eqn:Hfate; simpl; try lia.
  exfalso. exact (Hn e Hfate).
Qed.

Lemma dropped_are_failing (nodes : list pyval) :
  Forall stays_inside nodes ->
  length (dropped_warnings nodes) = length (failing nodes).
Proof.
  induction 1 as [|n nodes Hn _ IH]; [reflexivity|].
  rewrite dropped_warnings_cons, length_app, IH.
  unfold failing at 2. cbn [filter]. fold (failing nodes).
  pose proof (Hn) as Hn'. unfold stays_inside, fate_of in Hn'.
  unfold fate_of.
  destruct (_extract_episode n) as [episode|[b|msg]]; simpl.
  - reflexivity.
  - exfalso. exact (Hn' _ eq_refl).
  - destruct (subscript n (KStr "id")) as [id|e]; simpl; [reflexivity|].
    exfalso. exact (Hn' _ eq_refl).
Qed.

Lemma named_stays_inside (n : pyval) : normalises_or_is_named n -> stays_inside n.
Proof.
  unfold stays_inside, fate_of.
  intros [[episode Hn]|[Hn [id Hid]]] e; rewrite Hn; [discriminate|].
  unfold MissingMediaURL. rewrite Hid. discriminate.
Qed.

Lemma kept_are_survivors (nodes : list pyval) : kept_entries nodes = survivors nodes.
Proof.
  unfold kept_entries, survivors.
  induction nodes as [|n nodes IH]; [reflexivity|].
  cbn [flat_map]. rewrite IH. unfold fate_of.
  destruct (_extract_episode n) as [episode|[b|msg]]; try reflexivity.
  destruct (subscript n (KStr "id")); reflexivity.
Qed.

Lemma dropped_are_named (nodes : list pyval) :
  Forall stays_inside nodes ->
  dropped_warnings nodes = map warning_of (failing nodes).
Proof.
  induction 1 as [|n nodes Hn _ IH]; [reflexivity|].
  rewrite dropped_warnings_cons, IH.
  unfold failing. cbn [filter].
  unfold stays_inside, fate_of in Hn. unfold fate_of.
  destruct (_extract_episode n) as [episode|[b|msg]].
  - reflexivity.
  - exfalso. exact (Hn _ eq_refl).
  - cbn [map].
    destruct (subscript n (KStr "id")) as [id|e] eqn:Hid;
      [|exfalso; exact (Hn _ eq_refl)].
    replace (warning_of n) with (Warning.mk garbage_entry id id);
      [reflexivity|].
    unfold warning_of. rewrite Hid. reflexivity.
Qed.

(* ================================================================== *)
(** ** Properties of the routes *)
(* ================================================================== *)

Lemma same_class_refl (e : exn) : same_class e e.
Proof. destruct e; simpl; auto. Qed.

Lemma field_found (x : pyval) (path : list key) (isinstance : pyval -> bool) (v : pyval) :
  get_path path x = Return v -> isinstance v = true -> field x path isinstance = v.
Proof. intros Hp Hv. unfold field. rewrite Hp, Hv. reflexivity. Qed.

Lemma field_nodes (x : pyval) (path : list key) (nodes : list pyval) :
  field x path list_ = PyList nodes -> get_path path x = Return (PyList nodes).
Proof.
  unfold field. destruct (get_path path x) as [v|e]; [|discriminate].
  destruct (list_ v); [|discriminate]. intros Hv. rewrite Hv. reflexivity.
Qed.

(** What the shared assembler does with a response. *)
Lemma _extract_sammlung_sendung_run (playlist_id playlist_type : string)
    (result_data : pyval) (log : list Warning.t) :
  _download_json api_url (PyStr playlist_id) (playlist_query playlist_type playlist_id)
  = Return result_data ->
  _extract_sammlung_sendung playlist_id playlist_type log =
  match field result_data (nodes_path playlist_type) list_ with
  | PyList (n :: ns) =>
      match sammlung_sendung_entries (n :: ns) [] log with
      | (Return res_entries, log') =>
          (Return (Playlist.mk
                     (field result_data [KStr "data"; KStr playlist_type; KStr "id"] compat_str)
                     (field result_data [KStr "data"; KStr playlist_type; KStr "title"] compat_str)
                     "playlist" res_entries), log')
      | (Raise e, log') => (Raise e, log')
      end
  | _ => (Raise (EmptyPlaylist "playlist data"), log)
  end.
Proof.
  intros Hdownload.
  unfold _extract_sammlung_sendung, bind, lift. rewrite Hdownload.
  rewrite !try_get_path. fold (nodes_path playlist_type).
  destruct (try_get_list_shape result_data (nodes_path playlist_type)) as [Hnone|[nodes Hnodes]].
  - rewrite Hnone. reflexivity.
  - rewrite Hnodes. destruct nodes as [|n ns]; [reflexivity|].
    cbn [truthy negb ret].
    destruct (sammlung_sendung_entries (n :: ns) [] log) as [[res_entries|e] log'];
      reflexivity.
Qed.

(** What the search route does with a response. *)
Lemma ARDAudiothekSucheIE_real_extract_run (url : string) (result_data : pyval)
    (log : list Warning.t) :
  route_response Suche url = Return result_data ->
  ARDAudiothekSucheIE_real_extract url log =
  match field result_data (nodes_path "search") list_ with
  | PyList (n :: ns) =>
      match sammlung_sendung_entries (n :: ns) [] log with
      | (Return res_entries, log') =>
          (Return (Playlist.mk PyNone (PyStr (_match_id ARDAudiothekSucheIE_VALID_URL url))
                     "playlist" res_entries), log')
      | (Raise e, log') => (Raise e, log')
      end
  | _ => (Raise (EmptyPlaylist "search results"), log)
  end.
Proof.
  intros Hdownload. cbn [route_response] in Hdownload.
  unfold ARDAudiothekSucheIE_real_extract, bind, lift. rewrite Hdownload.
  rewrite !try_get_path. fold (nodes_path "search").
  destruct (try_get_list_shape result_data (nodes_path "search")) as [Hnone|[nodes Hnodes]].
  - rewrite Hnone. reflexivity.
  - rewrite Hnodes. destruct nodes as [|n ns]; [reflexivity|].
    cbn [truthy negb ret]. rewrite suche_entries_agree.
    destruct (sammlung_sendung_entries (n :: ns) [] log) as [[res_entries|e] log'];
      reflexivity.
Qed.

(** The three playlist routes in one equation. *)
Lemma playlist_real_extract_run (route : playlist_route) (url : string)
    (result_data : pyval) (log : list Warning.t) :
  route_response route url = Return result_data ->
  playlist_real_extract route url log =
  match field result_data (nodes_path (route_kind route)) list_ with
  | PyList (n :: ns) =>
      match sammlung_sendung_entries (n :: ns) [] log with
      | (Return res_entries, log') =>
          (Return (Playlist.mk (route_playlist_id route result_data)
                     (route_playlist_title route url result_data)
                     "playlist" res_entries), log')
      | (Raise e, log') => (Raise e, log')
      end
  | _ => (Raise (EmptyPlaylist (empty_message route)), log)
  end.
Proof.
  intros Hdownload. destruct route.
  - exact (_extract_sammlung_sendung_run _ _ _ log Hdownload).
  - exact (_extract_sammlung_sendung_run _ _ _ log Hdownload).
  - exact (ARDAudiothekSucheIE_real_extract_run url _ log Hdownload).
Qed.

Lemma playlist_real_extract_raises (route : playlist_route) (url : string) (e : exn)
    (log : list Warning.t) :
  route_response route url = Raise e ->
  playlist_real_extract route url log = (Raise e, log).
Proof.
  intros Hdownload.
  destruct route; cbn [route_response] in Hdownload;
    cbn [playlist_real_extract];
    unfold ARDAudiothekSammlungIE_real_extract, ARDAudiothekSendungIE_real_extract,
      ARDAudiothekSucheIE_real_extract, _extract_sammlung_sendung, bind, lift;
    rewrite Hdownload; reflexivity.
Qed.

(** C5. When the node list is absent, is not a list or is empty at the
    path a playlist route reads, the route raises its empty-playlist
    error, reports nothing and returns no playlist. *)
Theorem empty_node_list_is_fatal (route : playlist_route) (url : string)
    (result_data : pyval) (log : list Warning.t) :
  route_response route url = Return result_data ->
  (forall n ns,
      get_path (nodes_path (route_kind route)) result_data <> Return (PyList (n :: ns))) ->
  playlist_real_extract route url log = (Raise (EmptyPlaylist (empty_message route)), log).
Proof.
  intros Hdownload Hempty.
  rewrite (playlist_real_extract_run _ _ _ log Hdownload).
  destruct (field result_data (nodes_path (route_kind route)) list_) as [| | | | |nodes|]
    eqn:Hfield; try reflexivity.
  destruct nodes as [|n ns]; [reflexivity|].
  exfalso. apply (Hempty n ns). apply field_nodes. exact Hfield.
Qed.

(** C1, as the code has it.  A playlist route that returns read a node
    list that was not empty; its entries are the records of the nodes
    that normalise, one warning was reported for every other node, and
    entries and warnings together are as many as the nodes.  The entries
    themselves may be empty: that is when every node was dropped. *)
Theorem returned_playlist_accounts_for_nodes (route : playlist_route) (url : string)
    (log log' : list Warning.t) (p : Playlist.t) :
  playlist_real_extract route url log = (Return p, log') ->
  exists result_data nodes,
    route_response route url = Return result_data
    /\ get_path (nodes_path (route_kind route)) result_data = Return (PyList nodes)
    /\ nodes <> []
    /\ Playlist.entries p = survivors nodes
    /\ log' = log ++ map warning_of (failing nodes)
    /\ length (Playlist.entries p) + length (failing nodes) = length nodes.
Proof.
  intros Hrun.
  destruct (route_response route url) as [result_data|e] eqn:Hdownload.
  2:{ rewrite (playlist_real_extract_raises _ _ _ log Hdownload) in Hrun. discriminate Hrun. }
  rewrite (playlist_real_extract_run _ _ _ log Hdownload) in Hrun.
  destruct (field result_data (nodes_path (route_kind route)) list_) as [| | | | |nodes|]
    eqn:Hfield; try discriminate Hrun.
  destruct nodes as [|n ns]; [discriminate Hrun|].
  destruct (sammlung_sendung_entries (n :: ns) [] log) as [[res_entries|e] log0] eqn:Hloop;
    [|discriminate Hrun].
  pose proof (loop_returned _ _ _ _ _ Hloop) as Hinside.
  rewrite (loop_runs _ Hinside) in Hloop. cbn [app] in Hloop.
  assert (Hentries : res_entries = kept_entries (n :: ns)) by congruence.
  assert (Hlog : log0 = log ++ dropped_warnings (n :: ns)) by congruence.
  assert (Hp : p = Playlist.mk (route_playlist_id route result_data)
                     (route_playlist_title route url result_data) "playlist" res_entries)
    by congruence.
  assert (Hlog' : log' = log0) by congruence.
  subst res_entries log0 p log'.
  exists result_data, (n :: ns).
  split; [reflexivity|].
  split; [apply field_nodes; exact Hfield|].
  split; [discriminate|].
  cbn [Playlist.entries app].
  split; [apply kept_are_survivors|].
  split; [rewrite (dropped_are_named _ Hinside); reflexivity|].
  rewrite <- (dropped_are_failing _ Hinside). apply kept_and_dropped. exact Hinside.
Qed.

(** C2, as the code has it.  When the response holds at least one node
    and every node either normalises or fails for want of a url while
    carrying an id, the route returns a playlist whose entries are the
    records of the normalising nodes in upstream order, N-K of them, and
    reports K warnings, one for each failing node, in upstream order and
    naming the node by its id. *)
Theorem playlist_keeps_survivors (route : playlist_route) (url : string)
    (result_data : pyval) (nodes : list pyval) (log : list Warning.t) :
  route_response route url = Return result_data ->
  get_path (nodes_path (route_kind route)) result_data = Return (PyList nodes) ->
  nodes <> [] ->
  Forall normalises_or_is_named nodes ->
  exists p,
    playlist_real_extract route url log = (Return p, log ++ map warning_of (failing nodes))
    /\ Playlist.entries p = survivors nodes
    /\ length (Playlist.entries p) = length nodes - length (failing nodes)
    /\ length (map warning_of (failing nodes)) = length (failing nodes).
Proof.
  intros Hdownload Hnodes Hsome Hnamed.
  assert (Hinside : Forall stays_inside nodes).
  { eapply Forall_impl; [|exact Hnamed]. exact named_stays_inside. }
  rewrite (playlist_real_extract_run _ _ _ log Hdownload).
  rewrite (field_found _ _ list_ _ Hnodes eq_refl).
  destruct nodes as [|n ns]; [contradiction|].
  rewrite (loop_runs _ Hinside). cbn [app].
  eexists. split; [rewrite (dropped_are_named _ Hinside); reflexivity|].
  cbn [Playlist.entries].
  split; [apply kept_are_survivors|].
  split; [|apply length_map].
  pose proof (kept_and_dropped _ Hinside) as Hcount.
  rewrite (dropped_are_failing _ Hinside) in Hcount. lia.
Qed.

(** C6. When the response holds no item object (nothing, something that
    is not an object, or an object without fields) the episode route
    raises its no-episode-data error and returns no record. *)
Theorem missing_item_is_fatal (url : string) (result_data : pyval) (log : list Warning.t) :
  _download_json api_url (PyStr (_match_id ARDAudiothekEpisodeIE_VALID_URL url))
    (episode_query (_match_id ARDAudiothekEpisodeIE_VALID_URL url)) = Return result_data ->
  (forall f fs,
      get_path [KStr "data"; KStr "item"] result_data <> Return (PyDict (f :: fs))) ->
  ARDAudiothekEpisodeIE_real_extract url log = (Raise NoEpisodeData, log).
Proof.
  intros Hdownload Hnone.
  unfold ARDAudiothekEpisodeIE_real_extract, bind, lift.
  rewrite Hdownload, try_get_path.
  unfold field.
  destruct (get_path [KStr "data"; KStr "item"] result_data) as [v|e] eqn:Hitem;
    [|reflexivity].
  destruct v as [| | | | | |fields]; try reflexivity.
  destruct fields as [|f fs]; [reflexivity|].
  exfalso. exact (Hnone f fs eq_refl).
Qed.

(** C7, as the code has it.  Given the same response, the search route
    and the shared assembler asked for the root field [search] report the
    same warnings and either return playlists with the same entries or
    raise exceptions of the same class.  The playlists differ in id and
    title: the search route sets the id to None and the title to the
    search string. *)
Theorem search_assembles_like_shared (url : string) (log : list Warning.t) :
  _download_json api_url (PyStr (_match_id ARDAudiothekSucheIE_VALID_URL url))
    (playlist_query "search" (_match_id ARDAudiothekSucheIE_VALID_URL url))
  = route_response Suche url ->
  same_assembly
    (ARDAudiothekSucheIE_real_extract url log)
    (_extract_sammlung_sendung (_match_id ARDAudiothekSucheIE_VALID_URL url) "search" log)
  /\ forall p log',
      ARDAudiothekSucheIE_real_extract url log = (Return p, log') ->
      Playlist.id p = PyNone
      /\ Playlist.title p = PyStr (_match_id ARDAudiothekSucheIE_VALID_URL url).
Proof.
  intros Hsame.
  destruct (route_response Suche url) as [result_data|e] eqn:Hdownload.
  - rewrite (ARDAudiothekSucheIE_real_extract_run _ _ log Hdownload).
    rewrite (_extract_sammlung_sendung_run _ _ _ log Hsame).
    destruct (field result_data (nodes_path "search") list_) as [| | | | |nodes|];
      try (split; [split; [reflexivity|exact I]|intros p log' Hp; discriminate Hp]).
    destruct nodes as [|n ns];
      [split; [split; [reflexivity|exact I]|intros p log' Hp; discriminate Hp]|].
    destruct (sammlung_sendung_entries (n :: ns) [] log) as [[res_entries|e] log0].
    + split; [split; [reflexivity|split; reflexivity]|].
      intros p log' Hp. inversion Hp. split; reflexivity.
    + split; [split; [reflexivity|apply same_class_refl]|].
      intros p log' Hp. discriminate Hp.
  - pose proof (playlist_real_extract_raises Suche url e log Hdownload) as Hsuche.
    cbn [playlist_real_extract] in Hsuche. rewrite Hsuche.
    unfold _extract_sammlung_sendung, bind, lift. rewrite Hsame.
    split; [split; [reflexivity|apply same_class_refl]|].
    intros p log' Hp. discriminate Hp.
Qed.

(** C9. When a node of the list fails for want of a url and has no id to
    be found under the key [id], the route raises and returns no
    playlist; when the nodes before it stay inside the loop, what is
    raised is the KeyError or TypeError of the lookup of the id in the
    warning path, after the warnings of the nodes before it. *)
Theorem failing_node_without_id_aborts (route : playlist_route) (url : string)
    (result_data : pyval) (pre post : list pyval) (n : pyval) (log : list Warning.t) :
  route_response route url = Return result_data ->
  get_path (nodes_path (route_kind route)) result_data = Return (PyList (pre ++ n :: post)) ->
  (exists msg, _extract_episode n = Raise (ExtractorError msg)) ->
  (forall id, subscript n (KStr "id") <> Return id) ->
  (exists e log', playlist_real_extract route url log = (Raise e, log'))
  /\ (Forall stays_inside pre ->
      exists e,
        subscript n (KStr "id") = Raise e
        /\ (e = Builtin KeyError \/ e = Builtin TypeError)
        /\ playlist_real_extract route url log = (Raise e, log ++ dropped_warnings pre)).
Proof.
  intros Hdownload Hnodes [msg Hfails] Hnoid.
  destruct (subscript n (KStr "id")) as [id|e] eqn:Hid;
    [exfalso; exact (Hnoid id eq_refl)|].
  assert (Hfate : fate_of n = Escapes e).
  { unfold fate_of. rewrite Hfails, Hid. reflexivity. }
  rewrite (playlist_real_extract_run _ _ _ log Hdownload).
  rewrite (field_found _ _ list_ _ Hnodes eq_refl).
  destruct (pre ++ n :: post) as [|m ms] eqn:Hlist;
    [destruct pre; discriminate Hlist|].
  rewrite <- Hlist.
  split.
  - destruct (sammlung_sendung_entries (pre ++ n :: post) [] log)
      as [[res_entries|e'] log'] eqn:Hloop; [|eauto].
    exfalso.
    pose proof (loop_returned _ _ _ _ _ Hloop) as Hinside.
    apply Forall_app in Hinside. destruct Hinside as [_ Hinside].
    inversion Hinside as [|? ? Hn _]; subst.
    exact (Hn e Hfate).
  - intros Hpre. exists e.
    split; [reflexivity|].
    split; [eapply subscript_name_raises; exact Hid|].
    rewrite (loop_escapes _ _ _ _ Hpre Hfate). reflexivity.
Qed.

(* ================================================================== *)
(** ** Further properties of the episode normaliser *)
(* ================================================================== *)

Lemma try_get_shape (x : pyval) (getter : list (pyval -> outcome pyval))
    (isinstance : pyval -> bool) (v : pyval) :
  try_get x getter (Some isinstance) = Return v -> none_or isinstance v.
Proof.
  induction getter as [|get others IH]; cbn [try_get].
  - intros Hv. inversion Hv. left. reflexivity.
  - destruct (get x) as [w|e].
    + destruct (isinstance w) eqn:Hw; [|exact IH].
      intros Hv. inversion Hv; subst. right. exact Hw.
    + destruct (passed_over e); [exact IH|discriminate].
Qed.

Lemma try_get_single_raises (x : pyval) (get : pyval -> outcome pyval)
    (isinstance : pyval -> bool) (e : exn) :
  try_get x [get] (Some isinstance) = Raise e ->
  get x = Raise e /\ passed_over e = false.
Proof.
  cbn [try_get]. destruct (get x) as [w|e'].
  - destruct (isinstance w); discriminate.
  - destruct (passed_over e') eqn:He; [discriminate|].
    intros Hraise. inversion Hraise; subst. auto.
Qed.

(** The record a returning normaliser built, field by field. *)
Lemma extract_returns_fields (ep_data : pyval) (r : Episode.t) :
  _extract_episode ep_data = Return r ->
  r = Episode.mk
        (field ep_data [KStr "id"] compat_str)
        (field ep_data [KStr "title"] compat_str)
        (field ep_data [KStr "description"] compat_str)
        (offered_url ep_data)
        (field ep_data [KStr "duration"] int)
        (unified_strdate (field ep_data [KStr "publishDate"] compat_str))
        false
        (Episode.thumbnail r)
        (field ep_data
           [KStr "programSet"; KStr "publicationService"; KStr "organizationName"] compat_str)
        (field ep_data [KStr "programSet"; KStr "title"] compat_str)
        (field ep_data
           [KStr "programSet"; KStr "publicationService"; KStr "genre"] compat_str).
Proof.
  rewrite _extract_episode_eq.
  destruct (negb (truthy (offered_url ep_data))); [discriminate|].
  destruct (try_get ep_data [thumbnail_getter] (Some compat_str)) as [thumbnail|e];
    cbn [obind]; [|discriminate].
  intros Hr. inversion Hr. reflexivity.
Qed.

Lemma extract_returns_url (ep_data : pyval) (r : Episode.t) :
  _extract_episode ep_data = Return r -> has_url r.
Proof.
  intros Hr. destruct (extract_returns _ _ Hr) as (Htruthy & Hurl & _).
  unfold has_url. rewrite Hurl.
  destruct (offered_url_shape ep_data) as [Hnone|[s Hs]].
  - rewrite Hnone in Htruthy. discriminate Htruthy.
  - rewrite Hs in *. exists s. split; [reflexivity|].
    intros Hempty. subst s. discriminate Htruthy.
Qed.

Lemma extract_raises (ep_data : pyval) (e : exn) :
  _extract_episode ep_data = Raise e ->
  passed_over e = false /\ (e = MissingMediaURL \/ thumbnail_getter ep_data = Raise e).
Proof.
  rewrite _extract_episode_eq.
  destruct (negb (truthy (offered_url ep_data))).
  - intros Hraise. inversion Hraise. split; [reflexivity|left; reflexivity].
  - destruct (try_get ep_data [thumbnail_getter] (Some compat_str)) as [thumbnail|e']
      eqn:Hthumb; cbn [obind]; [discriminate|].
    intros Hraise. inversion Hraise; subst e'.
    destruct (try_get_single_raises _ _ _ _ Hthumb) as [Hget Hpassed]. auto.
Qed.

Lemma thumbnail_without_template (ep_data : pyval) :
  (forall text, get_path [KStr "image"; KStr "url1X1"] ep_data <> Return (PyStr text)) ->
  try_get ep_data [thumbnail_getter] (Some compat_str) = Return PyNone.
Proof.
  intros Hnone. cbn [try_get]. unfold thumbnail_getter.
  destruct (get_path [KStr "image"; KStr "url1X1"] ep_data) as [v|e] eqn:Hpath;
    cbn [obind].
  - destruct v; try reflexivity. exfalso. exact (Hnone s eq_refl).
  - rewrite (get_path_raises _ _ _ Hpath). reflexivity.
Qed.

Lemma thumbnail_of_render (ep_data : pyval) (text : string) :
  get_path [KStr "image"; KStr "url1X1"] ep_data = Return (PyStr text) ->
  thumbnail_getter ep_data =
  match render None text with
  | Rendered s => Return (PyStr s)
  | Fails e => Raise (Builtin e)
  | Beyond => str_format_beyond text
  end.
Proof.
  intros Hpath. unfold thumbnail_getter. rewrite Hpath. reflexivity.
Qed.

Lemma subscript_of_non_object (x : pyval) (name : string) :
  dict x = false -> subscript x (KStr name) = Raise (Builtin TypeError).
Proof. destruct x; simpl; intros Hx; try reflexivity. discriminate Hx. Qed.

Lemma offered_url_of_non_object (x : pyval) : dict x = false -> offered_url x = PyNone.
Proof.
  intros Hx. unfold offered_url, streaming_url, download_url. cbn [get_path].
  rewrite !(subscript_of_non_object _ _ Hx). reflexivity.
Qed.

Lemma offered_url_of_first_variant (fields : list (string * pyval))
    (variant : pyval) (others : list pyval) :
  dict_get fields "audios" = Some (PyList (variant :: others)) ->
  offered_url (PyDict fields) = variant_url variant.
Proof.
  intros Haudios.
  unfold offered_url, variant_url, streaming_url, download_url.
  cbn [get_path subscript]. rewrite Haudios. cbn [obind get_path].
  change (subscript (PyList (variant :: others)) (KIdx 0)) with (Return variant).
  cbn [obind].
  destruct (subscript variant (KStr "url")) as [[]|];
    destruct (subscript variant (KStr "downloadUrl")) as [[]|]; reflexivity.
Qed.

(** X1. A record the normaliser returns has a url that is a str and is
    not empty. *)
Theorem returned_record_has_url (ep_data : pyval) (r : Episode.t) :
  _extract_episode ep_data = Return r ->
  exists s, Episode.url r = PyStr s /\ s <> "".
Proof. exact (extract_returns_url ep_data r). Qed.

(** X2. In a record the normaliser returns, id, title, description,
    thumbnail, channel, series and categories are each None or a str,
    the duration is None or an int, and is_live is false. *)
Theorem returned_record_is_typed (ep_data : pyval) (r : Episode.t) :
  _extract_episode ep_data = Return r ->
  none_or compat_str (Episode.id r)
  /\ none_or compat_str (Episode.title r)
  /\ none_or compat_str (Episode.description r)
  /\ none_or int (Episode.duration r)
  /\ Episode.is_live r = false
  /\ none_or compat_str (Episode.thumbnail r)
  /\ none_or compat_str (Episode.channel r)
  /\ none_or compat_str (Episode.series r)
  /\ none_or compat_str (Episode.categories r).
Proof.
  intros Hr.
  destruct (extract_returns _ _ Hr) as (_ & _ & Hthumb & _).
  pose proof (try_get_shape _ _ _ _ Hthumb) as Hshape.
  rewrite (extract_returns_fields _ _ Hr). cbn.
  repeat split; try apply field_shape. exact Hshape.
Qed.

(** X3. When the streaming getter gives no str and the download url of
    the first audio variant is a str, a record the normaliser returns has
    the download url. *)
Theorem download_url_is_the_fallback (ep_data : pyval) (d : string) (r : Episode.t) :
  (forall s, streaming_url ep_data <> Return (PyStr s)) ->
  download_url ep_data = Return (PyStr d) ->
  _extract_episode ep_data = Return r ->
  Episode.url r = PyStr d.
Proof.
  intros Hnone Hd Hr.
  destruct (extract_returns _ _ Hr) as (_ & Hurl & _).
  rewrite Hurl. exact (offered_url_fallback _ _ Hnone Hd).
Qed.

(** X4. Whatever value it is given, the normaliser never raises one of
    the lookup errors (KeyError, IndexError, TypeError, AttributeError):
    what it raises is the missing-url error or what formatting the
    thumbnail template raised. *)
Theorem normaliser_raises_no_lookup_error (ep_data : pyval) (e : exn) :
  _extract_episode ep_data = Raise e ->
  passed_over e = false
  /\ (e = MissingMediaURL \/ thumbnail_getter ep_data = Raise e).
Proof. exact (extract_raises ep_data e). Qed.

(** X5. When the image template is absent, not a str, or a template of
    literal text and width placeholders, the normaliser either returns a
    record or raises the missing-url error: nothing else can happen. *)
Theorem normaliser_returns_or_misses_url (ep_data : pyval) :
  (forall text,
      get_path [KStr "image"; KStr "url1X1"] ep_data = Return (PyStr text) ->
      exists t, Forall well_formed t /\ text = template_text t) ->
  (exists r, _extract_episode ep_data = Return r)
  \/ _extract_episode ep_data = Raise MissingMediaURL.
Proof.
  intros Htemplate.
  destruct (truthy (offered_url ep_data)) eqn:Hurl;
    [left|right; exact (extract_without_url _ Hurl)].
  destruct (get_path [KStr "image"; KStr "url1X1"] ep_data) as [v|e] eqn:Hpath.
  - destruct v as [| | | |text| |];
      try (eapply extract_succeeds;
           [exact Hurl|apply thumbnail_without_template; rewrite Hpath; discriminate]).
    destruct (Htemplate text eq_refl) as (t & Ht & Htext). subst text.
    eapply extract_succeeds; [exact Hurl|].
    exact (thumbnail_of_template _ _ Ht Hpath).
  - eapply extract_succeeds; [exact Hurl|].
    apply thumbnail_without_template. rewrite Hpath. discriminate.
Qed.

(** X6. Only the first audio variant counts: the url of a returned
    record is what the first variant offers, and when the first variant
    offers no url the normaliser raises the missing-url error whatever
    the later variants hold. *)
Theorem only_first_audio_variant_counts (fields : list (string * pyval))
    (variant : pyval) (others : list pyval) :
  dict_get fields "audios" = Some (PyList (variant :: others)) ->
  (forall r, _extract_episode (PyDict fields) = Return r ->
             Episode.url r = variant_url variant)
  /\ (truthy (variant_url variant) = false ->
      _extract_episode (PyDict fields) = Raise MissingMediaURL).
Proof.
  intros Haudios.
  pose proof (offered_url_of_first_variant _ _ _ Haudios) as Hoffered.
  split.
  - intros r Hr. destruct (extract_returns _ _ Hr) as (_ & Hurl & _).
    rewrite Hurl. exact Hoffered.
  - intros Hnone. apply extract_without_url. rewrite Hoffered. exact Hnone.
Qed.

(** X7. A node that is not an object (null, a number, a string, a list)
    has no url: the normaliser raises the missing-url error. *)
Theorem non_object_node_misses_url (ep_data : pyval) :
  dict ep_data = false ->
  _extract_episode ep_data = Raise MissingMediaURL.
Proof.
  intros Hx. apply extract_without_url.
  rewrite (offered_url_of_non_object _ Hx). reflexivity.
Qed.

(** X8. A malformed thumbnail template defeats the whole record: when
    the node offers a url and formatting its image template raises
    ValueError (a brace on its own), the normaliser raises ValueError
    instead of returning the record without a thumbnail. *)
Theorem malformed_template_is_not_tolerated (ep_data : pyval) (s text : string) :
  streaming_url ep_data = Return (PyStr s) ->
  s <> "" ->
  get_path [KStr "image"; KStr "url1X1"] ep_data = Return (PyStr text) ->
  render None text = Fails ValueError ->
  _extract_episode ep_data = Raise (Builtin ValueError).
Proof.
  intros Hs Hnonempty Hpath Hrender.
  rewrite _extract_episode_eq, (offered_url_streaming _ _ Hs).
  assert (Htruthy : truthy (PyStr s) = true).
  { cbn. destruct (String.eqb_spec s ""); [contradiction|reflexivity]. }
  rewrite Htruthy. cbn [negb try_get].
  rewrite (thumbnail_of_render _ _ Hpath), Hrender. reflexivity.
Qed.

(** X9. The thumbnail of a returned record is None when the path
    image/url1X1 gives no str (a link is missing, or the value is not a
    str), and also when the template names a placeholder other than
    width. *)
Theorem thumbnail_degrades_to_none (ep_data : pyval) (r : Episode.t) :
  _extract_episode ep_data = Return r ->
  ((forall text, get_path [KStr "image"; KStr "url1X1"] ep_data <> Return (PyStr text))
   \/ (exists text,
         get_path [KStr "image"; KStr "url1X1"] ep_data = Return (PyStr text)
         /\ render None text = Fails KeyError)) ->
  Episode.thumbnail r = PyNone.
Proof.
  intros Hr Hcase.
  destruct (extract_returns _ _ Hr) as (_ & _ & Hthumb & _).
  destruct Hcase as [Hnone|(text & Hpath & Hrender)].
  - rewrite (thumbnail_without_template _ Hnone) in Hthumb. congruence.
  - cbn [try_get] in Hthumb.
    rewrite (thumbnail_of_render _ _ Hpath), Hrender in Hthumb.
    cbn in Hthumb. congruence.
Qed.

(* ================================================================== *)
(** ** Further properties of the routes *)
(* ================================================================== *)

(** The loop does not look at the warnings reported before it: it adds
    its own after them. *)
Lemma loop_frame (nodes : list pyval) :
  forall res_entries log,
    sammlung_sendung_entries nodes res_entries log =
    (fst (sammlung_sendung_entries nodes res_entries []),
     log ++ snd (sammlung_sendung_entries nodes res_entries [])).
Proof.
  induction nodes as [|n nodes IH]; intros res_entries log.
  - cbn. rewrite app_nil_r. reflexivity.
  - rewrite !sammlung_sendung_step.
    destruct (fate_of n) as [episode|id|e].
    + apply IH.
    + rewrite (IH res_entries (log ++ [Warning.mk garbage_entry id id])).
      rewrite (IH res_entries ([] ++ [Warning.mk garbage_entry id id])).
      cbn [fst snd app]. rewrite <- app_assoc. reflexivity.
    + cbn. rewrite app_nil_r. reflexivity.
Qed.

Lemma loop_warnings_shaped (nodes : list pyval) :
  forall res_entries log,
    Forall well_shaped log ->
    Forall well_shaped (snd (sammlung_sendung_entries nodes res_entries log)).
Proof.
  induction nodes as [|n nodes IH]; intros res_entries log Hlog.
  - exact Hlog.
  - rewrite sammlung_sendung_step.
    destruct (fate_of n) as [episode|id|e].
    + apply IH. exact Hlog.
    + apply IH. apply Forall_app. split; [exact Hlog|].
      constructor; [split; reflexivity|constructor].
    + exact Hlog.
Qed.

Lemma kept_have_urls (nodes : list pyval) : Forall has_url (kept_entries nodes).
Proof.
  induction nodes as [|n nodes IH]; [constructor|].
  rewrite kept_entries_cons.
  unfold fate_of.
  destruct (_extract_episode n) as [episode|[b|msg]] eqn:Hn; cbn [app]; try exact IH.
  - constructor; [|exact IH]. exact (extract_returns_url _ _ Hn).
  - destruct (subscript n (KStr "id")); exact IH.
Qed.

(** What a returning playlist route read and built. *)
Lemma playlist_returned (route : playlist_route) (url : string)
    (log log' : list Warning.t) (p : Playlist.t) :
  playlist_real_extract route url log = (Return p, log') ->
  exists result_data nodes,
    route_response route url = Return result_data
    /\ field result_data (nodes_path (route_kind route)) list_ = PyList nodes
    /\ Forall stays_inside nodes
    /\ p = Playlist.mk (route_playlist_id route result_data)
             (route_playlist_title route url result_data) "playlist" (kept_entries nodes)
    /\ log' = log ++ dropped_warnings nodes.
Proof.
  intros Hrun.
  destruct (route_response route url) as [result_data|e] eqn:Hdownload.
  2:{ rewrite (playlist_real_extract_raises _ _ _ log Hdownload) in Hrun. discriminate Hrun. }
  rewrite (playlist_real_extract_run _ _ _ log Hdownload) in Hrun.
  destruct (field result_data (nodes_path (route_kind route)) list_) as [| | | | |nodes|]
    eqn:Hfield; try discriminate Hrun.
  destruct nodes as [|n ns]; [discriminate Hrun|].
  destruct (sammlung_sendung_entries (n :: ns) [] log) as [[res_entries|e] log0] eqn:Hloop;
    [|discriminate Hrun].
  pose proof (loop_returned _ _ _ _ _ Hloop) as Hinside.
  rewrite (loop_runs _ Hinside) in Hloop. cbn [app] in Hloop.
  exists result_data, (n :: ns).
  split; [reflexivity|]. split; [exact Hfield|]. split; [exact Hinside|].
  split; congruence.
Qed.

(** The first node whose exception leaves the loop ends the route. *)
Lemma playlist_escapes (route : playlist_route) (url : string) (result_data : pyval)
    (pre post : list pyval) (n : pyval) (e : exn) (log : list Warning.t) :
  route_response route url = Return result_data ->
  get_path (nodes_path (route_kind route)) result_data = Return (PyList (pre ++ n :: post)) ->
  Forall normalises_or_is_named pre ->
  fate_of n = Escapes e ->
  playlist_real_extract route url log = (Raise e, log ++ map warning_of (failing pre)).
Proof.
  intros Hdownload Hnodes Hnamed Hfate.
  assert (Hpre : Forall stays_inside pre).
  { eapply Forall_impl; [|exact Hnamed]. exact named_stays_inside. }
  rewrite (playlist_real_extract_run _ _ _ log Hdownload).
  rewrite (field_found _ _ list_ _ Hnodes eq_refl).
  destruct (pre ++ n :: post) as [|m ms] eqn:Hlist;
    [destruct pre; discriminate Hlist|].
  rewrite <- Hlist.
  rewrite (loop_escapes _ _ _ _ Hpre Hfate), (dropped_are_named _ Hpre). reflexivity.
Qed.

(** X10. Every entry of a playlist a route returns has a url that is a
    str and is not empty. *)
Theorem playlist_entries_have_urls (route : playlist_route) (url : string)
    (log log' : list Warning.t) (p : Playlist.t) :
  playlist_real_extract route url log = (Return p, log') ->
  Forall has_url (Playlist.entries p).
Proof.
  intros Hrun.
  destruct (playlist_returned _ _ _ _ _ Hrun) as (result_data & nodes & _ & _ & _ & Hp & _).
  subst p. apply kept_have_urls.
Qed.

(** X11. A playlist route does not look at the warnings reported before
    it and never withdraws one: run after any warnings, it has the
    outcome it has when run first, and the warnings are those reported
    before followed by those it reports when run first. *)
Theorem playlist_route_appends_warnings (route : playlist_route) (url : string)
    (log : list Warning.t) :
  playlist_real_extract route url log =
  (fst (playlist_real_extract route url []),
   log ++ snd (playlist_real_extract route url [])).
Proof.
  destruct (route_response route url) as [result_data|e] eqn:Hdownload.
  - rewrite !(playlist_real_extract_run _ _ _ _ Hdownload).
    destruct (field result_data (nodes_path (route_kind route)) list_) as [| | | | |nodes|];
      try (cbn; rewrite app_nil_r; reflexivity).
    destruct nodes as [|n ns]; [cbn; rewrite app_nil_r; reflexivity|].
    rewrite (loop_frame (n :: ns) [] log).
    destruct (sammlung_sendung_entries (n :: ns) [] []) as [[res_entries|e] ws];
      reflexivity.
  - rewrite !(playlist_real_extract_raises _ _ _ _ Hdownload).
    cbn. rewrite app_nil_r. reflexivity.
Qed.

(** X12. Every warning a playlist route reports, whether it returns or
    raises, carries the text of the garbage-entry message and names the
    same value in the text and as video id. *)
Theorem playlist_warnings_are_well_shaped (route : playlist_route) (url : string) :
  Forall well_shaped (snd (playlist_real_extract route url [])).
Proof.
  destruct (route_response route url) as [result_data|e] eqn:Hdownload.
  - rewrite (playlist_real_extract_run _ _ _ _ Hdownload).
    destruct (field result_data (nodes_path (route_kind route)) list_) as [| | | | |nodes|];
      try constructor.
    destruct nodes as [|n ns]; [constructor|].
    pose proof (loop_warnings_shaped (n :: ns) [] [] (Forall_nil _)) as Hshaped.
    destruct (sammlung_sendung_entries (n :: ns) [] []) as [[res_entries|e] ws];
      exact Hshaped.
  - rewrite (playlist_real_extract_raises _ _ _ _ Hdownload). constructor.
Qed.

(** X13. When the upstream call of a playlist route raises, the route
    raises the same exception and reports nothing. *)
Theorem playlist_upstream_failure_is_surfaced (route : playlist_route) (url : string)
    (e : exn) (log : list Warning.t) :
  route_response route url = Raise e ->
  playlist_real_extract route url log = (Raise e, log).
Proof. exact (playlist_real_extract_raises route url e log). Qed.

(** X14. When the response holds an item object with at least one field,
    the episode route gives exactly what the normaliser gives on that
    object, a missing url being fatal there, and reports nothing. *)
Theorem episode_route_is_the_normaliser (url : string) (result_data : pyval)
    (f : string * pyval) (fs : list (string * pyval)) (log : list Warning.t) :
  _download_json api_url (PyStr (_match_id ARDAudiothekEpisodeIE_VALID_URL url))
    (episode_query (_match_id ARDAudiothekEpisodeIE_VALID_URL url)) = Return result_data ->
  get_path [KStr "data"; KStr "item"] result_data = Return (PyDict (f :: fs)) ->
  ARDAudiothekEpisodeIE_real_extract url log = (_extract_episode (PyDict (f :: fs)), log).
Proof.
  intros Hdownload Hitem.
  unfold ARDAudiothekEpisodeIE_real_extract, bind, lift.
  rewrite Hdownload, try_get_path, (field_found _ _ dict _ Hitem eq_refl).
  reflexivity.
Qed.

(** X15. The episode route never reports a warning, whatever the
    response and whether it returns or raises. *)
Theorem episode_route_reports_nothing (url : string) (log : list Warning.t) :
  snd (ARDAudiothekEpisodeIE_real_extract url log) = log.
Proof.
  unfold ARDAudiothekEpisodeIE_real_extract, bind, lift.
  destruct (_download_json _ _ _) as [result_data|e]; [|reflexivity].
  rewrite try_get_path.
  destruct (negb (truthy (field result_data [KStr "data"; KStr "item"] dict)));
    reflexivity.
Qed.

(** X16. A playlist a route returns is tagged as a playlist, and its id
    and title are each None or a str. *)
Theorem playlist_head_is_typed (route : playlist_route) (url : string)
    (log log' : list Warning.t) (p : Playlist.t) :
  playlist_real_extract route url log = (Return p, log') ->
  Playlist._type p = "playlist"
  /\ none_or compat_str (Playlist.id p)
  /\ none_or compat_str (Playlist.title p).
Proof.
  intros Hrun.
  destruct (playlist_returned _ _ _ _ _ Hrun) as (result_data & nodes & _ & _ & _ & Hp & _).
  subst p. cbn [Playlist._type Playlist.id Playlist.title].
  split; [reflexivity|].
  destruct route; cbn [route_playlist_id route_playlist_title];
    (split; [try apply field_shape|try apply field_shape]).
  - left. reflexivity.
  - right. reflexivity.
Qed.

(** X17. A playlist the show route or the collection route returns has
    the id and the title of the response's root object when these are
    strs; a value that is not a str, a numeric id say, gives None. *)
Theorem shared_playlist_head_is_read (route : playlist_route) (url : string)
    (result_data id title : pyval) (log log' : list Warning.t) (p : Playlist.t) :
  route <> Suche ->
  route_response route url = Return result_data ->
  get_path [KStr "data"; KStr (route_kind route); KStr "id"] result_data = Return id ->
  get_path [KStr "data"; KStr (route_kind route); KStr "title"] result_data = Return title ->
  playlist_real_extract route url log = (Return p, log') ->
  Playlist.id p = (if compat_str id then id else PyNone)
  /\ Playlist.title p = (if compat_str title then title else PyNone).
Proof.
  intros Hroute Hdownload Hid Htitle Hrun.
  destruct (playlist_returned _ _ _ _ _ Hrun)
    as (result_data' & nodes & Hdownload' & _ & _ & Hp & _).
  assert (result_data' = result_data) by congruence. subst result_data' p.
  cbn [Playlist.id Playlist.title].
  destruct route; try contradiction;
    cbn [route_playlist_id route_playlist_title];
    unfold field; rewrite Hid, Htitle; split; reflexivity.
Qed.

(** X18. Only the extractor's own error is tolerated in a playlist: when
    the normaliser raises a builtin exception on a node (the ValueError
    of a malformed thumbnail template, say), the route raises it, after
    the warnings of the nodes before, and neither the records gathered
    so far nor the nodes after it are looked at. *)
Theorem builtin_exception_aborts_playlist (route : playlist_route) (url : string)
    (result_data : pyval) (pre post : list pyval) (n : pyval) (b : builtin_exn)
    (log : list Warning.t) :
  route_response route url = Return result_data ->
  get_path (nodes_path (route_kind route)) result_data = Return (PyList (pre ++ n :: post)) ->
  Forall normalises_or_is_named pre ->
  _extract_episode n = Raise (Builtin b) ->
  playlist_real_extract route url log
  = (Raise (Builtin b), log ++ map warning_of (failing pre)).
Proof.
  intros Hdownload Hnodes Hnamed Hn.
  apply (playlist_escapes _ _ _ _ _ _ _ _ Hdownload Hnodes Hnamed).
  unfold fate_of. rewrite Hn. reflexivity.
Qed.

(** X19. A node that is not an object (a null node, say) ends a playlist
    route with a TypeError: it has no url, and it cannot be asked for
    its id in the warning path. *)
Theorem non_object_node_aborts_playlist (route : playlist_route) (url : string)
    (result_data : pyval) (pre post : list pyval) (n : pyval) (log : list Warning.t) :
  route_response route url = Return result_data ->
  get_path (nodes_path (route_kind route)) result_data = Return (PyList (pre ++ n :: post)) ->
  Forall normalises_or_is_named pre ->
  dict n = false ->
  playlist_real_extract route url log
  = (Raise (Builtin TypeError), log ++ map warning_of (failing pre)).
Proof.
  intros Hdownload Hnodes Hnamed Hn.
  apply (playlist_escapes _ _ _ _ _ _ _ _ Hdownload Hnodes Hnamed).
  unfold fate_of.
  rewrite (extract_without_url n), (subscript_of_non_object _ _ Hn); [reflexivity|].
  rewrite (offered_url_of_non_object _ Hn). reflexivity.
Qed.

Lemma get_path_app (p q : list key) :
  forall x, get_path (p ++ q) x = obind (get_path p x) (get_path q).
Proof.
  induction p as [|k p IH]; intros x; [reflexivity|].
  cbn [app get_path]. destruct (subscript x k) as [v|e]; cbn [obind]; [apply IH|reflexivity].
Qed.

Lemma field_under_root (rd1 rd2 : pyval) (root1 root2 rest : list key)
    (isinstance : pyval -> bool) :
  get_path root1 rd1 = get_path root2 rd2 ->
  field rd1 (root1 ++ rest) isinstance = field rd2 (root2 ++ rest) isinstance.
Proof.
  intros Hroot. unfold field. rewrite !get_path_app, Hroot. reflexivity.
Qed.

(** X20. The shared assembler reads the response only through the root
    object data[playlist_type]: two calls, for whatever ids and types,
    whose responses hold the same root object give the same outcome and
    the same warnings.  This is what lets the show route and the
    collection route share it. *)
Theorem shared_assembler_reads_the_root_object (id1 type1 id2 type2 : string)
    (rd1 rd2 : pyval) (log : list Warning.t) :
  _download_json api_url (PyStr id1) (playlist_query type1 id1) = Return rd1 ->
  _download_json api_url (PyStr id2) (playlist_query type2 id2) = Return rd2 ->
  get_path [KStr "data"; KStr type1] rd1 = get_path [KStr "data"; KStr type2] rd2 ->
  _extract_sammlung_sendung id1 type1 log = _extract_sammlung_sendung id2 type2 log.
Proof.
  intros H1 H2 Hroot.
  rewrite (_extract_sammlung_sendung_run _ _ _ log H1).
  rewrite (_extract_sammlung_sendung_run _ _ _ log H2).
  unfold nodes_path.
  pose proof (field_under_root rd1 rd2 _ _ [KStr "items"; KStr "nodes"] list_ Hroot)
    as Hnodes.
  pose proof (field_under_root rd1 rd2 _ _ [KStr "id"] compat_str Hroot) as Hid.
  pose proof (field_under_root rd1 rd2 _ _ [KStr "title"] compat_str Hroot) as Htitle.
  cbn [app] in Hnodes, Hid, Htitle.
  rewrite Hnodes, Hid, Htitle. reflexivity.
Qed.

(** X21. The date parser is handed the publish timestamp only when it is
    a str, and None otherwise: the upload date of a returned record is
    what the parser makes of that. *)
Theorem upload_date_is_parsed_from_a_str (ep_data : pyval) (r : Episode.t) :
  _extract_episode ep_data = Return r ->
  Episode.upload_date r =
  unified_strdate
    match get_path [KStr "publishDate"] ep_data with
    | Return (PyStr timestamp) => PyStr timestamp
    | _ => PyNone
    end.
Proof.
  intros Hr. rewrite (extract_returns_fields _ _ Hr).
  cbn [Episode.upload_date]. unfold field.
  destruct (get_path [KStr "publishDate"] ep_data) as [[]|]; reflexivity.
Qed.

End ARDAudiothek.

(* ================================================================== *)
(** ** The properties on sample documents *)
(* ================================================================== *)

Local Abbreviation extract_episode := (_extract_episode sample_strdate sample_format_beyond).
Local Abbreviation real_extract document :=
  (playlist_real_extract sample_match_id (sample_download document)
     sample_strdate sample_format_beyond).
Local Abbreviation upstream document :=
  (route_response sample_match_id (sample_download document)).

Example render_plain : render None "https://img/a.jpg" = Rendered "https://img/a.jpg".
Proof. reflexivity. Qed.
Example render_width :
  render None "https://img/{width}/a.jpg?w={width}" = Rendered "https://img/320/a.jpg?w=320".
Proof. reflexivity. Qed.
Example render_escapes : render None "a{{width}}b" = Rendered "a{width}b".
Proof. reflexivity. Qed.
Example render_other_field : render None "a{height}b}" = Fails KeyError.
Proof. reflexivity. Qed.
Example render_lone_brace : render None "a{width}b}" = Fails ValueError.
Proof. reflexivity. Qed.
Example render_spec : render None "a{width:04d}" = Beyond.
Proof. reflexivity. Qed.

Example match_id_of_sendung : sample_match_id ARDAudiothekSendungIE_VALID_URL sendung_url = "12187357".
Proof. reflexivity. Qed.

Example match_id_of_suche : sample_match_id ARDAudiothekSucheIE_VALID_URL suche_url = "termite".
Proof. reflexivity. Qed.

Example extract_streaming : extract_episode node_streaming = Return record_streaming.
Proof. reflexivity. Qed.

Example extract_download_only : extract_episode node_download_only = Return record_download_only.
Proof. reflexivity. Qed.

(** A lone closing brace in the thumbnail template is a ValueError that
    [try_get] lets through: the node is not normalised at all. *)
Example extract_malformed_template :
  extract_episode
    (PyDict [("audios", audio (PyStr "https://media/stream.mp3") PyNone);
             ("image", PyDict [("url1X1", PyStr "https://img/{width}}/a.jpg")])])
  = Raise (Builtin ValueError).
Proof. reflexivity. Qed.

(** The show of the specification's example: three nodes, all with urls. *)
Example sendung_of_three :
  real_extract (response "programSet" [node_streaming; node_download_only; node_streaming])
    Sendung sendung_url []
  = (Return (Playlist.mk (PyStr "12187357") (PyStr "Korridore") "playlist"
               [record_streaming; record_download_only; record_streaming]), []).
Proof. reflexivity. Qed.

(** *** The episode normaliser *)

Lemma missing_url_is_fatal_witness :
  (forall s, streaming_url node_without_url <> Return (PyStr s))
  /\ (forall s, download_url node_without_url <> Return (PyStr s))
  /\ extract_episode node_without_url = Raise MissingMediaURL.
Proof.
  assert (Hs : forall s, streaming_url node_without_url <> Return (PyStr s))
    by (intros s; vm_compute; discriminate).
  assert (Hd : forall s, download_url node_without_url <> Return (PyStr s))
    by (intros s; vm_compute; discriminate).
  split; [exact Hs|]. split; [exact Hd|].
  exact (proj1 (missing_url_is_fatal sample_strdate sample_format_beyond
                  node_without_url Hs Hd)).
Defined.

Lemma streaming_url_takes_priority_witness :
  streaming_url node_streaming = Return (PyStr "https://media/stream.mp3")
  /\ download_url node_streaming = Return (PyStr "https://media/download.mp3")
  /\ exists r,
      extract_episode node_streaming = Return r
      /\ Episode.url r = PyStr "https://media/stream.mp3"
      /\ Episode.thumbnail r = PyStr "https://img/320/a.jpg".
Proof.
  split; [reflexivity|]. split; [reflexivity|].
  refine (proj2 (streaming_url_takes_priority sample_strdate sample_format_beyond
                   node_streaming "https://media/stream.mp3" eq_refl)
            _ (PyStr "https://img/320/a.jpg") eq_refl).
  discriminate.
Defined.

(** C8 as stated fails: a template that names the width and another
    placeholder is not resolved, the record is returned with no
    thumbnail at all. *)
Lemma thumbnail_lost_to_other_placeholder :
  get_path [KStr "image"; KStr "url1X1"] node_two_placeholders
  = Return (PyStr "https://img/{width}x{height}/a.jpg")
  /\ extract_episode node_two_placeholders = Return record_two_placeholders
  /\ Episode.thumbnail record_two_placeholders = PyNone
  /\ Episode.thumbnail record_two_placeholders <> PyStr "https://img/320x{height}/a.jpg".
Proof. split; [|split; [|split]]; [reflexivity|reflexivity|reflexivity|discriminate]. Qed.

Lemma thumbnail_width_is_320_witness :
  offered_url node_streaming = PyStr "https://media/stream.mp3"
  /\ (exists r,
        extract_episode node_streaming = Return r
        /\ Episode.thumbnail r = PyStr "https://img/320/a.jpg")
  /\ offered_url node_download_only = PyStr "https://media/download.mp3"
  /\ (exists r,
        extract_episode node_download_only = Return r
        /\ Episode.thumbnail r = PyNone).
Proof.
  split; [reflexivity|]. split; [|split; [reflexivity|]].
  - destruct (proj1 (thumbnail_width_is_320 sample_strdate sample_format_beyond
                       node_streaming "https://media/stream.mp3" eq_refl
                       ltac:(discriminate))
                [Lit "https://img/"; Width; Lit "/a.jpg"]
                ltac:(repeat constructor) eq_refl)
      as (r & Hr & Hthumb & _).
    exists r. split; [exact Hr|exact Hthumb].
  - apply (proj2 (thumbnail_width_is_320 sample_strdate sample_format_beyond
                    node_download_only "https://media/download.mp3" eq_refl
                    ltac:(discriminate))).
    intros fields. vm_compute. discriminate.
Defined.

Lemma empty_streaming_url_is_missing_witness :
  streaming_url node_empty_streaming = Return (PyStr "")
  /\ download_url node_empty_streaming = Return (PyStr "https://media/download.mp3")
  /\ extract_episode node_empty_streaming = Raise MissingMediaURL.
Proof.
  split; [reflexivity|]. split; [reflexivity|].
  apply (empty_streaming_url_is_missing sample_strdate sample_format_beyond
           node_empty_streaming).
  reflexivity.
Defined.

(** *** The routes *)

Lemma empty_node_list_is_fatal_witness :
  upstream (search_response []) Suche suche_url = Return (search_response [])
  /\ real_extract (search_response []) Suche suche_url []
     = (Raise (EmptyPlaylist "search results"), []).
Proof.
  split; [reflexivity|].
  apply (empty_node_list_is_fatal sample_match_id (sample_download (search_response []))
           sample_strdate sample_format_beyond Suche suche_url (search_response []) []).
  - reflexivity.
  - intros n ns. vm_compute. discriminate.
Defined.

Lemma missing_item_is_fatal_witness :
  ARDAudiothekEpisodeIE_real_extract sample_match_id
    (sample_download (PyDict [("data", PyDict [("item", PyNone)])]))
    sample_strdate sample_format_beyond episode_url []
  = (Raise NoEpisodeData, []).
Proof.
  apply (missing_item_is_fatal sample_match_id
           (sample_download (PyDict [("data", PyDict [("item", PyNone)])]))
           sample_strdate sample_format_beyond episode_url
           (PyDict [("data", PyDict [("item", PyNone)])]) []).
  - reflexivity.
  - intros f fs. vm_compute. discriminate.
Defined.

(** C1 as stated fails: a show whose only node has no url is returned
    as a playlist without entries. *)
Lemma returned_playlist_without_entries :
  real_extract (response "programSet" [node_without_url]) Sendung sendung_url []
  = (Return (Playlist.mk (PyStr "12187357") (PyStr "Korridore") "playlist" []),
     [warning_9])
  /\ Playlist.entries (Playlist.mk (PyStr "12187357") (PyStr "Korridore") "playlist" []) = [].
Proof. split; reflexivity. Qed.

Lemma returned_playlist_accounts_for_nodes_witness :
  real_extract (response "programSet" [node_streaming; node_without_url]) Sendung sendung_url []
  = (Return (Playlist.mk (PyStr "12187357") (PyStr "Korridore") "playlist"
               [record_streaming]), [warning_9])
  /\ exists result_data nodes,
      upstream (response "programSet" [node_streaming; node_without_url]) Sendung sendung_url
      = Return result_data
      /\ get_path (nodes_path "programSet") result_data = Return (PyList nodes)
      /\ nodes <> []
      /\ [record_streaming] = survivors sample_strdate sample_format_beyond nodes
      /\ [warning_9] = [] ++ map warning_of (failing sample_strdate sample_format_beyond nodes)
      /\ 1 + length (failing sample_strdate sample_format_beyond nodes) = length nodes.
Proof.
  split; [reflexivity|].
  apply (returned_playlist_accounts_for_nodes sample_match_id
           (sample_download (response "programSet" [node_streaming; node_without_url]))
           sample_strdate sample_format_beyond Sendung sendung_url [] [warning_9]
           (Playlist.mk (PyStr "12187357") (PyStr "Korridore") "playlist" [record_streaming])).
  reflexivity.
Defined.

(** C2 as stated fails twice: a list of no nodes is fatal instead of a
    playlist of no entries, and a node that fails for want of a url and
    has no id ends the route with a KeyError instead of a warning. *)
Lemma playlist_not_always_assembled :
  real_extract (response "programSet" []) Sendung sendung_url []
  = (Raise (EmptyPlaylist "playlist data"), [])
  /\ extract_episode node_without_url_or_id = Raise MissingMediaURL
  /\ real_extract (response "programSet" [node_without_url_or_id]) Sendung sendung_url []
     = (Raise (Builtin KeyError), []).
Proof. split; [|split]; reflexivity. Qed.

Lemma playlist_keeps_survivors_witness :
  exists p,
    real_extract (response "programSet" [node_streaming; node_without_url; node_download_only])
      Sendung sendung_url []
    = (Return p, [warning_9])
    /\ Playlist.entries p = [record_streaming; record_download_only]
    /\ length (Playlist.entries p) = 3 - 1.
Proof.
  destruct (playlist_keeps_survivors sample_match_id
              (sample_download
                 (response "programSet" [node_streaming; node_without_url; node_download_only]))
              sample_strdate sample_format_beyond Sendung sendung_url
              (response "programSet" [node_streaming; node_without_url; node_download_only])
              [node_streaming; node_without_url; node_download_only] [])
    as (p & Hrun & Hentries & Hcount & _).
  - reflexivity.
  - reflexivity.
  - discriminate.
  - apply Forall_cons; [|apply Forall_cons; [|apply Forall_cons; [|apply Forall_nil]]].
    + left. exists record_streaming. reflexivity.
    + right. split; [reflexivity|]. exists (PyStr "9"). reflexivity.
    + left. exists record_download_only. reflexivity.
  - exists p. split; [exact Hrun|]. split; [exact Hentries|exact Hcount].
Defined.

(** C7 as stated fails: on the same response the search route and the
    shared assembler return playlists with different titles. *)
Lemma search_playlist_differs_from_shared :
  ARDAudiothekSucheIE_real_extract sample_match_id
    (sample_download (search_response [node_streaming]))
    sample_strdate sample_format_beyond suche_url []
  = (Return (Playlist.mk PyNone (PyStr "termite") "playlist" [record_streaming]), [])
  /\ _extract_sammlung_sendung (sample_download (search_response [node_streaming]))
       sample_strdate sample_format_beyond "termite" "search" []
     = (Return (Playlist.mk PyNone PyNone "playlist" [record_streaming]), [])
  /\ Playlist.mk PyNone (PyStr "termite") "playlist" [record_streaming]
     <> Playlist.mk PyNone PyNone "playlist" [record_streaming].
Proof. split; [|split]; [reflexivity|reflexivity|discriminate]. Qed.

Lemma search_assembles_like_shared_witness :
  same_assembly
    (ARDAudiothekSucheIE_real_extract sample_match_id
       (sample_download (search_response [node_streaming; node_without_url]))
       sample_strdate sample_format_beyond suche_url [])
    (_extract_sammlung_sendung
       (sample_download (search_response [node_streaming; node_without_url]))
       sample_strdate sample_format_beyond
       (sample_match_id ARDAudiothekSucheIE_VALID_URL suche_url) "search" []).
Proof.
  apply (search_assembles_like_shared sample_match_id
           (sample_download (search_response [node_streaming; node_without_url]))
           sample_strdate sample_format_beyond suche_url []).
  reflexivity.
Defined.

Lemma failing_node_without_id_aborts_witness :
  (exists msg, extract_episode node_without_url_or_id = Raise (ExtractorError msg))
  /\ (forall id, subscript node_without_url_or_id (KStr "id") <> Return id)
  /\ exists e log',
      real_extract
        (search_response ([node_without_url] ++ node_without_url_or_id :: [node_streaming]))
        Suche suche_url []
      = (Raise e, log').
Proof.
  assert (Hfails : exists msg,
             extract_episode node_without_url_or_id = Raise (ExtractorError msg))
    by (eexists; reflexivity).
  assert (Hnoid : forall id, subscript node_without_url_or_id (KStr "id") <> Return id)
    by (intros id; vm_compute; discriminate).
  split; [exact Hfails|]. split; [exact Hnoid|].
  refine (proj1 (failing_node_without_id_aborts sample_match_id
                   (sample_download
                      (search_response
                         ([node_without_url] ++ node_without_url_or_id :: [node_streaming])))
                   sample_strdate sample_format_beyond Suche suche_url
                   (search_response
                      ([node_without_url] ++ node_without_url_or_id :: [node_streaming]))
                   [node_without_url] [node_streaming] node_without_url_or_id []
                   _ _ Hfails Hnoid)); reflexivity.
Defined.

(** The same list, run: the first node is dropped with its warning, the
    second ends the route with the KeyError of the lookup of its id. *)
Example failing_node_without_id_run :
  real_extract
    (search_response [node_without_url; node_without_url_or_id; node_streaming])
    Suche suche_url []
  = (Raise (Builtin KeyError), [warning_9]).
Proof. reflexivity. Qed.

(* ================================================================== *)
(** ** The further properties on sample documents *)
(* ================================================================== *)

Lemma returned_record_has_url_witness :
  extract_episode node_streaming = Return record_streaming
  /\ exists s, Episode.url record_streaming = PyStr s /\ s <> "".
Proof.
  split; [reflexivity|].
  apply (returned_record_has_url sample_strdate sample_format_beyond node_streaming).
  reflexivity.
Defined.

Lemma returned_record_is_typed_witness :
  extract_episode node_streaming = Return record_streaming
  /\ none_or int (Episode.duration record_streaming)
  /\ Episode.is_live record_streaming = false.
Proof.
  split; [reflexivity|].
  destruct (returned_record_is_typed sample_strdate sample_format_beyond
              node_streaming record_streaming eq_refl)
    as (_ & _ & _ & Hduration & Hlive & _).
  split; [exact Hduration|exact Hlive].
Defined.

Lemma download_url_is_the_fallback_witness :
  (forall s, streaming_url node_download_only <> Return (PyStr s))
  /\ download_url node_download_only = Return (PyStr "https://media/download.mp3")
  /\ extract_episode node_download_only = Return record_download_only
  /\ Episode.url record_download_only = PyStr "https://media/download.mp3".
Proof.
  assert (Hs : forall s, streaming_url node_download_only <> Return (PyStr s))
    by (intros s; vm_compute; discriminate).
  split; [exact Hs|]. split; [reflexivity|]. split; [reflexivity|].
  exact (download_url_is_the_fallback sample_strdate sample_format_beyond
           node_download_only "https://media/download.mp3" record_download_only
           Hs eq_refl eq_refl).
Defined.

Lemma normaliser_raises_no_lookup_error_witness :
  extract_episode node_lone_brace = Raise (Builtin ValueError)
  /\ passed_over (Builtin ValueError) = false.
Proof.
  split; [reflexivity|].
  exact (proj1 (normaliser_raises_no_lookup_error sample_strdate sample_format_beyond
                  node_lone_brace (Builtin ValueError) eq_refl)).
Defined.

Lemma normaliser_returns_or_misses_url_witness :
  (exists r, extract_episode node_without_url = Return r)
  \/ extract_episode node_without_url = Raise MissingMediaURL.
Proof.
  apply (normaliser_returns_or_misses_url sample_strdate sample_format_beyond
           node_without_url).
  intros text Hpath. vm_compute in Hpath. discriminate Hpath.
Defined.

Lemma only_first_audio_variant_counts_witness :
  truthy (variant_url (PyDict [("url", PyNone)])) = false
  /\ extract_episode node_second_variant_only = Raise MissingMediaURL.
Proof.
  split; [reflexivity|].
  refine (proj2 (only_first_audio_variant_counts sample_strdate sample_format_beyond
                   [("id", PyStr "11");
                    ("audios", PyList [PyDict [("url", PyNone)];
                                       PyDict [("url", PyStr "https://media/second.mp3")]])]
                   (PyDict [("url", PyNone)])
                   [PyDict [("url", PyStr "https://media/second.mp3")]] _) _);
    reflexivity.
Defined.

Lemma non_object_node_misses_url_witness :
  extract_episode PyNone = Raise MissingMediaURL.
Proof.
  apply (non_object_node_misses_url sample_strdate sample_format_beyond PyNone).
  reflexivity.
Defined.

Lemma malformed_template_is_not_tolerated_witness :
  streaming_url node_lone_brace = Return (PyStr "https://media/stream.mp3")
  /\ render None "https://img/{width}}/a.jpg" = Fails ValueError
  /\ extract_episode node_lone_brace = Raise (Builtin ValueError).
Proof.
  split; [reflexivity|]. split; [reflexivity|].
  apply (malformed_template_is_not_tolerated sample_strdate sample_format_beyond
           node_lone_brace "https://media/stream.mp3" "https://img/{width}}/a.jpg").
  - reflexivity.
  - discriminate.
  - reflexivity.
  - reflexivity.
Defined.

Lemma thumbnail_degrades_to_none_witness :
  extract_episode node_other_placeholder = Return record_other_placeholder
  /\ render None "https://img/{height}/a.jpg" = Fails KeyError
  /\ Episode.thumbnail record_other_placeholder = PyNone.
Proof.
  split; [reflexivity|]. split; [reflexivity|].
  apply (thumbnail_degrades_to_none sample_strdate sample_format_beyond
           node_other_placeholder record_other_placeholder eq_refl).
  right. exists "https://img/{height}/a.jpg". split; reflexivity.
Defined.

Lemma playlist_entries_have_urls_witness :
  real_extract (response "programSet" [node_streaming; node_without_url]) Sendung sendung_url []
  = (Return (Playlist.mk (PyStr "12187357") (PyStr "Korridore") "playlist"
               [record_streaming]), [warning_9])
  /\ Forall has_url [record_streaming].
Proof.
  split; [reflexivity|].
  apply (playlist_entries_have_urls sample_match_id
           (sample_download (response "programSet" [node_streaming; node_without_url]))
           sample_strdate sample_format_beyond Sendung sendung_url [] [warning_9]
           (Playlist.mk (PyStr "12187357") (PyStr "Korridore") "playlist" [record_streaming])).
  reflexivity.
Defined.

Lemma playlist_upstream_failure_is_surfaced_witness :
  playlist_real_extract sample_match_id
    (failing_download (ExtractorError "Failed to download JSON metadata"))
    sample_strdate sample_format_beyond Suche suche_url [warning_9]
  = (Raise (ExtractorError "Failed to download JSON metadata"), [warning_9]).
Proof.
  apply (playlist_upstream_failure_is_surfaced sample_match_id
           (failing_download (ExtractorError "Failed to download JSON metadata"))
           sample_strdate sample_format_beyond Suche suche_url).
  reflexivity.
Defined.

Lemma episode_route_is_the_normaliser_witness :
  ARDAudiothekEpisodeIE_real_extract sample_match_id
    (sample_download (PyDict [("data", PyDict [("item", node_empty_streaming)])]))
    sample_strdate sample_format_beyond episode_url []
  = (extract_episode node_empty_streaming, [])
  /\ extract_episode node_empty_streaming = Raise MissingMediaURL.
Proof.
  split; [|reflexivity].
  apply (episode_route_is_the_normaliser sample_match_id
           (sample_download (PyDict [("data", PyDict [("item", node_empty_streaming)])]))
           sample_strdate sample_format_beyond episode_url
           (PyDict [("data", PyDict [("item", node_empty_streaming)])])
           ("id", PyStr "8")
           [("audios", audio (PyStr "") (PyStr "https://media/download.mp3"))] []);
    reflexivity.
Defined.

Lemma playlist_head_is_typed_witness :
  real_extract (search_response [node_streaming]) Suche suche_url []
  = (Return (Playlist.mk PyNone (PyStr "termite") "playlist" [record_streaming]), [])
  /\ none_or compat_str PyNone
  /\ none_or compat_str (PyStr "termite").
Proof.
  split; [reflexivity|].
  exact (proj2 (playlist_head_is_typed sample_match_id
                  (sample_download (search_response [node_streaming]))
                  sample_strdate sample_format_beyond Suche suche_url [] []
                  (Playlist.mk PyNone (PyStr "termite") "playlist" [record_streaming])
                  eq_refl)).
Defined.

Lemma shared_playlist_head_is_read_witness :
  real_extract (response "programSet" [node_streaming]) Sendung sendung_url []
  = (Return (Playlist.mk (PyStr "12187357") (PyStr "Korridore") "playlist"
               [record_streaming]), [])
  /\ Playlist.id (Playlist.mk (PyStr "12187357") (PyStr "Korridore") "playlist"
                    [record_streaming]) = PyStr "12187357"
  /\ Playlist.title (Playlist.mk (PyStr "12187357") (PyStr "Korridore") "playlist"
                       [record_streaming]) = PyStr "Korridore".
Proof.
  split; [reflexivity|].
  refine (shared_playlist_head_is_read sample_match_id
            (sample_download (response "programSet" [node_streaming]))
            sample_strdate sample_format_beyond Sendung sendung_url
            (response "programSet" [node_streaming])
            (PyStr "12187357") (PyStr "Korridore") [] []
            (Playlist.mk (PyStr "12187357") (PyStr "Korridore") "playlist" [record_streaming])
            _ eq_refl eq_refl eq_refl eq_refl).
  discriminate.
Defined.

Lemma builtin_exception_aborts_playlist_witness :
  extract_episode node_lone_brace = Raise (Builtin ValueError)
  /\ real_extract
       (response "programSet" ([node_without_url] ++ node_lone_brace :: [node_streaming]))
       Sendung sendung_url []
     = (Raise (Builtin ValueError), [warning_9]).
Proof.
  split; [reflexivity|].
  apply (builtin_exception_aborts_playlist sample_match_id
           (sample_download
              (response "programSet" ([node_without_url] ++ node_lone_brace :: [node_streaming])))
           sample_strdate sample_format_beyond Sendung sendung_url
           (response "programSet" ([node_without_url] ++ node_lone_brace :: [node_streaming]))
           [node_without_url] [node_streaming] node_lone_brace ValueError []).
  - reflexivity.
  - reflexivity.
  - apply Forall_cons; [|apply Forall_nil].
    right. split; [reflexivity|]. exists (PyStr "9"). reflexivity.
  - reflexivity.
Defined.

Lemma non_object_node_aborts_playlist_witness :
  real_extract (search_response ([node_streaming] ++ PyNone :: [node_download_only]))
    Suche suche_url []
  = (Raise (Builtin TypeError), []).
Proof.
  apply (non_object_node_aborts_playlist sample_match_id
           (sample_download
              (search_response ([node_streaming] ++ PyNone :: [node_download_only])))
           sample_strdate sample_format_beyond Suche suche_url
           (search_response ([node_streaming] ++ PyNone :: [node_download_only]))
           [node_streaming] [node_download_only] PyNone []).
  - reflexivity.
  - reflexivity.
  - apply Forall_cons; [|apply Forall_nil].
    left. exists record_streaming. reflexivity.
  - reflexivity.
Defined.

Lemma shared_assembler_reads_the_root_object_witness :
  _extract_sammlung_sendung
    (fun _ _ _ => Return (PyDict [("data", PyDict [("programSet", root_object);
                                                   ("editorialCollection", root_object)])]))
    sample_strdate sample_format_beyond "12187357" "programSet" []
  = _extract_sammlung_sendung
      (fun _ _ _ => Return (PyDict [("data", PyDict [("programSet", root_object);
                                                     ("editorialCollection", root_object)])]))
      sample_strdate sample_format_beyond "56081830" "editorialCollection" [].
Proof.
  apply (shared_assembler_reads_the_root_object
           (fun _ _ _ => Return (PyDict [("data", PyDict [("programSet", root_object);
                                                          ("editorialCollection", root_object)])]))
           sample_strdate sample_format_beyond
           "12187357" "programSet" "56081830" "editorialCollection"
           (PyDict [("data", PyDict [("programSet", root_object);
                                     ("editorialCollection", root_object)])])
           (PyDict [("data", PyDict [("programSet", root_object);
                                     ("editorialCollection", root_object)])]) []);
    reflexivity.
Defined.

Lemma upload_date_is_parsed_from_a_str_witness :
  exists r,
    _extract_episode digits_strdate sample_format_beyond node_dated = Return r
    /\ Episode.upload_date r = PyStr "20220521".
Proof.
  eexists. split; [reflexivity|].
  exact (upload_date_is_parsed_from_a_str digits_strdate sample_format_beyond node_dated
           _ eq_refl).
Defined.
